(** * Passport validation service: the validation pipeline

    A shallow embedding of [src/passport_validation.py]: the image quality
    gate, the MRZ stage, the layout check and the request handler that runs
    them in sequence.  The computer-vision and OCR libraries (OpenCV, numpy,
    PassportEye) are taken as a class of providers; the handler's own logic
    (thresholds, messages, control flow, the temporary file) is embedded as
    written. *)

From Stdlib Require Import ZArith QArith String Ascii List Lia SpecFloat.
From stdpp Require Import base option gmap strings list.

Local Open Scope string_scope.
Local Open Scope Z_scope.

(** ** Data *)

(** File contents and upload bodies. *)
Definition bytes := list Byte.byte.

(** A decoded image, [np.ndarray]: [image.shape[:2]] is [(height, width)].
    [cv2.imdecode(_, cv2.IMREAD_COLOR)] always yields a three-dimensional
    array, so the two leading dimensions exist; samples are kept as
    integers. *)
Record ndarray : Type := mk_ndarray {
  shape_height : Z;
  shape_width : Z;
  samples : list Z
}.

Definition shape2 (image : ndarray) : Z * Z :=
  (shape_height image, shape_width image).

(** The object returned by PassportEye's [read_mrz], restricted to the
    attributes the service reads.  [valid_score] is optional because the
    source guards it with [hasattr]; the other attributes are read only
    after the score was found above 50, when the library has set them. *)
Record MRZ : Type := mk_MRZ {
  country : string;
  number : string;
  date_of_birth : string;
  expiration_date : string;
  names : string;
  surname : string;
  sex : string;
  nationality : string;
  valid_score : option Z;
  valid_number : bool;
  valid_date_of_birth : bool;
  valid_expiration_date : bool;
  valid_composite : bool
}.

(** The ["validation_details"] dictionary built by [validate_mrz]. *)
Record validation_details : Type := mk_details {
  vd_valid_score : Z;
  vd_number_valid : bool;
  vd_dob_valid : bool;
  vd_expiry_valid : bool;
  vd_composite_valid : bool
}.

(** The dictionary returned by [validate_mrz]; its keys are fixed literals
    and every later subscript uses one of them, so it is a record here. *)
Record mrz_dict : Type := mk_mrz_dict {
  d_country : string;
  d_passport_number : string;
  d_birth_date : string;
  d_expiry_date : string;
  d_name : string;
  d_surname : string;
  d_gender : string;
  d_nationality : string;
  d_validation_details : validation_details
}.

(** JSON-like values for response bodies; a dictionary keeps its items in
    insertion order. *)
#[warnings="-register-all"]
Inductive pyval : Type :=
| PBool (b : bool)
| PStr (s : string)
| PDict (items : list (string * pyval)).

(** What the handler hands back to FastAPI: an explicit [JSONResponse] or a
    plain dictionary (served with status 200). *)
Inductive retval : Type :=
| JSONResponse (status_code : Z) (content : pyval)
| ReturnDict (content : pyval).

Inductive exn : Type :=
| HTTPException (status_code : Z) (detail : string)
| FileNotFoundError (path : string)
| TypeError (msg : string).

(** Library calls, in the order they are made. *)
Inductive call : Type :=
| Call_cvtColor
| Call_Laplacian
| Call_imwrite (path : string)
| Call_read_mrz (path : string)
| Call_CascadeClassifier
| Call_detectMultiScale.

(** The world a request runs in: the files of the working directory and
    the log of library calls. *)
Record world : Type := mk_world {
  files : gmap string bytes;
  calls : list call
}.

(** ** A state and exception monad *)

Inductive outcome (A : Type) : Type :=
| Returned (a : A)
| Raised (e : exn).
Arguments Returned {A} a.
Arguments Raised {A} e.

Definition M (A : Type) : Type := world -> outcome A * world.

Definition ret {A} (a : A) : M A := fun w => (Returned a, w).

Definition raise {A} (e : exn) : M A := fun w => (Raised e, w).

Definition bind {A B} (m : M A) (k : A -> M B) : M B :=
  fun w =>
    match m w with
    | (Returned a, w') => k a w'
    | (Raised e, w') => (Raised e, w')
    end.

(** [try: m except Exception as e: h e] *)
Definition try_except {A} (m : M A) (h : exn -> M A) : M A :=
  fun w =>
    match m w with
    | (Returned a, w') => (Returned a, w')
    | (Raised e, w') => h e w'
    end.

Notation "'let*' p ':=' m 'in' k" := (bind m (fun p => k))
  (at level 10, p pattern, k at level 200).

Definition log_call (c : call) : M unit :=
  fun w => (Returned tt, mk_world (files w) (calls w ++ [c])).

(** ** The libraries *)

Class Providers : Type := {
  (** [cv2.imdecode(np.frombuffer(contents, np.uint8), cv2.IMREAD_COLOR)];
      [None] when the bytes are not an image. *)
  imdecode : bytes -> option ndarray;
  (** [cv2.cvtColor(_, cv2.COLOR_BGR2GRAY)] *)
  cvtColor_BGR2GRAY : ndarray -> ndarray;
  (** [cv2.Laplacian(_, cv2.CV_64F)] *)
  Laplacian_CV_64F : ndarray -> ndarray;
  (** [_.var()]: a finite float, seen as the rational it denotes. *)
  var : ndarray -> Q;
  (** [f"{_:.1f}"] *)
  format_1f : Q -> string;
  (** The bytes [cv2.imwrite] stores for a [.jpg] path. *)
  imencode_jpg : ndarray -> bytes;
  (** PassportEye's MRZ extraction on the contents of an image file. *)
  extract_mrz : bytes -> option MRZ;
  (** [face_cascade.detectMultiScale(_, scaleFactor=1.1, minNeighbors=5)]:
      boxes [(x, y, w, h)]. *)
  detectMultiScale : ndarray -> list (Z * Z * Z * Z);
  (** [str(e)] *)
  str_exn : exn -> string
}.

(** ** Floats

    A finite Python float is kept as the rational it denotes; [<] and [>]
    on finite floats are the comparisons of these rationals. *)

Definition Qltb (a b : Q) : bool :=
  (Qnum a * Zpos (Qden b) <? Qnum b * Zpos (Qden a))%Z.

(** [n / 2^k] rounded to the nearest integer, ties to even. *)
Definition round_half_even (n k : Z) : Z :=
  let q := n / 2 ^ k in
  let r := n mod 2 ^ k in
  if 2 * r <? 2 ^ k then q
  else if 2 ^ k <? 2 * r then q + 1
  else if Z.even q then q else q + 1.

(** The literal [0.4] is the double [0x1.999999999999ap-2], that is
    [double_0_4 / 2^54]. *)
Definition double_0_4 : Z := 7205759403792794.

(** [width * 0.4] in binary64, for [0 <= width < 2^53]: the integer
    converts exactly, and the product with the double [0.4] is rounded to
    53 significant bits. *)
Definition mul_0_4 (width : Z) : Q :=
  let product := width * double_0_4 in
  let k := Z.max 0 (Z.log2 product - 52) in
  Qmake (round_half_even product k * 2 ^ k) (2 ^ 54).

(** The same product by the IEEE 754 operations of the standard library,
    as a check of [mul_0_4]. *)
Definition ieee_mul_0_4 (width : Z) : spec_float :=
  SFmul 53 1024 (binary_normalize 53 1024 width 0 false)
        (S754_finite false 7205759403792794 (-54)).

Definition Q_of_spec_float (f : spec_float) : option Q :=
  match f with
  | S754_zero _ => Some 0%Q
  | S754_finite s m e =>
      let n := if s then Z.neg m else Z.pos m in
      Some (if 0 <=? e then inject_Z (n * 2 ^ e)
            else Qmake n (Z.to_pos (2 ^ (- e))))
  | S754_infinity _ | S754_nan => None
  end.

Definition mul_0_4_agrees (width : Z) : bool :=
  match Q_of_spec_float (ieee_mul_0_4 width) with
  | Some q => Qeq_bool q (mul_0_4 width)
  | None => false
  end.

(** [p 0 && p 1 && ... && p (n - 1)] *)
Definition all_below (p : Z -> bool) (n : Z) : bool :=
  snd (Z.iter n (fun '(i, ok) => (i + 1, ok && p i)) (0, true)).

Section Pipeline.
Context `{Providers}.

Definition cv2_cvtColor (image : ndarray) : M ndarray :=
  let* _ := log_call Call_cvtColor in
  ret (cvtColor_BGR2GRAY image).

Definition cv2_Laplacian (gray : ndarray) : M ndarray :=
  let* _ := log_call Call_Laplacian in
  ret (Laplacian_CV_64F gray).

(** [cv2.imwrite(path, image)]: creates or overwrites the file.  The
    working directory is taken to be writable and the path not to be a
    directory; the caller ignores the returned flag, so a write that fails
    is outside this model. *)
Definition cv2_imwrite (path : string) (image : ndarray) : M unit :=
  let* _ := log_call (Call_imwrite path) in
  fun w => (Returned tt,
            mk_world (<[path := imencode_jpg image]> (files w)) (calls w)).

(** [read_mrz(path)]: reads the file, then extracts. *)
Definition read_mrz (path : string) : M (option MRZ) :=
  let* _ := log_call (Call_read_mrz path) in
  fun w =>
    match files w !! path with
    | Some contents => (Returned (extract_mrz contents), w)
    | None => (Raised (FileNotFoundError path), w)
    end.

Definition cv2_CascadeClassifier : M unit :=
  log_call Call_CascadeClassifier.

Definition face_cascade_detectMultiScale (gray : ndarray)
  : M (list (Z * Z * Z * Z)) :=
  let* _ := log_call Call_detectMultiScale in
  ret (detectMultiScale gray).

(** *** [check_image_quality] *)
Definition check_image_quality (image : ndarray) : M (bool * string) :=
  let '(height, width) := shape2 image in
  if (width <? 800) || (height <? 600) then
    ret (false, "Image resolution too low (min 1200x900 pixels required)")
  else
    let* gray := cv2_cvtColor image in
    let* lap := cv2_Laplacian gray in
    let sharpness := var lap in
    if Qltb sharpness 50 then
      ret (false,
           "Image is too blurry (sharpness score: "
             +:+ format_1f sharpness +:+ ")")
    else
      ret (true, "Image quality OK").

(** *** [validate_mrz] *)
Definition validate_mrz (image : ndarray) : M (bool * option mrz_dict) :=
  let temp_path := "temp_passport.jpg" in
  let* _ := cv2_imwrite temp_path image in
  let* mrz := read_mrz temp_path in
  match mrz with
  | None => ret (false, None)
  | Some mrz =>
      match valid_score mrz with
      | None => ret (false, None)
      | Some score =>
          if score <=? 50 then ret (false, None)
          else
            ret (true, Some {|
              d_country := country mrz;
              d_passport_number := number mrz;
              d_birth_date := date_of_birth mrz;
              d_expiry_date := expiration_date mrz;
              d_name := names mrz;
              d_surname := surname mrz;
              d_gender := sex mrz;
              d_nationality := nationality mrz;
              d_validation_details := {|
                vd_valid_score := score;
                vd_number_valid := valid_number mrz;
                vd_dob_valid := valid_date_of_birth mrz;
                vd_expiry_valid := valid_expiration_date mrz;
                vd_composite_valid := valid_composite mrz
              |}
            |})
      end
  end.

(** *** [check_passport_layout] *)
Definition check_passport_layout (image : ndarray) : M (bool * string) :=
  let '(height, width) := shape2 image in
  let* _ := cv2_CascadeClassifier in
  let* gray := cv2_cvtColor image in
  let* faces := face_cascade_detectMultiScale gray in
  match faces with
  | [] => ret (false, "No face detected in passport photo")
  | (x, y, w, h) :: _ =>
      if Qltb (mul_0_4 width) (inject_Z x) then
        ret (false, "Face position incorrect (should be on right side)")
      else
        ret (true, "Basic layout OK")
  end.

Definition failure (error : string) : retval :=
  JSONResponse 400 (PDict [("valid", PBool false); ("error", PStr error)]).

(** *** [validate_passport], from the decoded image on (lines 119-158) *)
Definition validate (image : ndarray) : M retval :=
  let* (quality_ok, quality_msg) := check_image_quality image in
  if negb quality_ok then ret (failure quality_msg)
  else
    let* (mrz_ok, mrz_data) := validate_mrz image in
    if negb mrz_ok then ret (failure "MRZ not found or invalid")
    else
      let* (layout_ok, layout_msg) := check_passport_layout image in
      if negb layout_ok then ret (failure layout_msg)
      else
        match mrz_data with
        | None => raise (TypeError "'NoneType' object is not subscriptable")
        | Some mrz_data =>
            ret (ReturnDict (PDict [
              ("valid", PBool true);
              ("country", PStr (d_country mrz_data));
              ("passport_number", PStr (d_passport_number mrz_data));
              ("birth_date", PStr (d_birth_date mrz_data));
              ("expiry_date", PStr (d_expiry_date mrz_data));
              ("name", PStr (d_surname mrz_data +:+ " " +:+ d_name mrz_data));
              ("gender", PStr (d_gender mrz_data));
              ("nationality", PStr (d_nationality mrz_data));
              ("checks", PDict [
                 ("image_quality", PStr quality_msg);
                 ("layout_validation", PStr layout_msg)])
            ]))
        end.

(** *** [validate_passport] *)
Definition validate_passport (contents : bytes) : M retval :=
  try_except
    (match imdecode contents with
     | None => raise (HTTPException 400 "Invalid image file")
     | Some image => validate image
     end)
    (fun e => raise (HTTPException 500 ("Processing error: " +:+ str_exn e))).

End Pipeline.

(** ** The calls each stage makes *)

Definition quality_calls (image : ndarray) : list call :=
  if (shape_width image <? 800) || (shape_height image <? 600) then []
  else [Call_cvtColor; Call_Laplacian].

Definition mrz_calls : list call :=
  [Call_imwrite "temp_passport.jpg"; Call_read_mrz "temp_passport.jpg"].

Definition layout_calls : list call :=
  [Call_CascadeClassifier; Call_cvtColor; Call_detectMultiScale].

(** ** Stub providers

    Providers that answer with canned values whatever the image: a
    sharpness score, an MRZ extraction result and a list of face boxes. *)

Definition stub_providers (sharpness : Q) (mrz : option MRZ)
    (faces : list (Z * Z * Z * Z)) : Providers := {|
  imdecode := fun contents =>
    match contents with
    | [] => None
    | _ => Some (mk_ndarray 900 1200 [])
    end;
  cvtColor_BGR2GRAY := fun image => image;
  Laplacian_CV_64F := fun gray => gray;
  var := fun _ => sharpness;
  format_1f := fun q => "?";
  imencode_jpg := fun image =>
    ([Byte.xff; Byte.xd8]
       ++ map (fun z => default Byte.x00 (Byte.of_N (Z.to_N (z mod 256))))
              (samples image))%list;
  extract_mrz := fun _ => mrz;
  detectMultiScale := fun _ => faces;
  str_exn := fun e =>
    match e with
    | HTTPException _ detail => detail
    | FileNotFoundError path => path
    | TypeError msg => msg
    end
|}.

(** The specimen record of ICAO 9303, with a given score and number flag. *)
Definition specimen (score : Z) (number_ok : bool) : MRZ := {|
  country := "UTO";
  number := "L898902C3";
  date_of_birth := "740812";
  expiration_date := "120415";
  names := "ANNA MARIA";
  surname := "ERIKSSON";
  sex := "F";
  nationality := "UTO";
  valid_score := Some score;
  valid_number := number_ok;
  valid_date_of_birth := true;
  valid_expiration_date := true;
  valid_composite := true
|}.

Definition empty_world : world := mk_world ∅ [].

Definition image_1200x900 : ndarray := mk_ndarray 900 1200 [].
Definition image_800x600 : ndarray := mk_ndarray 600 800 [].
Definition image_400x300 : ndarray := mk_ndarray 300 400 [].

(** ** Canned scenarios *)

(** A face box in the left part of a 1200 pixel wide image. *)
Definition face_left : Z * Z * Z * Z := (120, 80, 300, 400).
(** A face box starting at half the width of a 1200 pixel wide image. *)
Definition face_right : Z * Z * Z * Z := (600, 80, 300, 400).

Definition passing_providers : Providers :=
  stub_providers 120 (Some (specimen 60 false)) [face_left].
Definition blurry_providers : Providers :=
  stub_providers 12.5 (Some (specimen 100 true)) [face_left].
Definition not_found_providers : Providers :=
  stub_providers 120 None [face_left].
Definition low_confidence_providers : Providers :=
  stub_providers 120 (Some (specimen 50 false)) [face_left].
Definition score_51_providers : Providers :=
  stub_providers 120 (Some (specimen 51 false)) [face_left].
Definition no_face_providers : Providers :=
  stub_providers 120 (Some (specimen 100 true)) [].
Definition misplaced_face_providers : Providers :=
  stub_providers 120 (Some (specimen 100 true)) [face_right; face_left].

(** The two MRZ failures are told apart by the caller: the response for a
    record of low score differs from the response for no record. *)
Definition mrz_failures_distinct (low_confidence not_found : Providers)
    (image : ndarray) (w : world) : Prop :=
  fst (@validate low_confidence image w) <> fst (@validate not_found image w).

(** ** The check-digit routine *)

Module CheckDigit.

(** Modelled from the spec: the character mapping of the MRZ check-digit
    algorithm.  The service delegates MRZ parsing and check-digit
    validation to the PassportEye library ([read_mrz]); that routine is
    not among the sources, so it is written here from section 4.3 of the
    specification: [0-9] map to themselves, [A-Z] to 10-35 and the filler
    [<] to 0.  Other characters have no value. *)
Definition char_value (c : ascii) : option Z :=
  let n := Z.of_N (N_of_ascii c) in
  if (48 <=? n) && (n <=? 57) then Some (n - 48)
  else if (65 <=? n) && (n <=? 90) then Some (n - 55)
  else if n =? 60 then Some 0
  else None.

(** Modelled from the spec: the cyclic weights 7, 3, 1 by position. *)
Definition weight (i : nat) : Z :=
  match (i mod 3)%nat with
  | O => 7
  | S O => 3
  | _ => 1
  end.

(** Modelled from the spec: [sum(value_i * weight_i)] over the field,
    the first character being at position [i]. *)
Fixpoint weighted_sum (i : nat) (field : list ascii) : option Z :=
  match field with
  | [] => Some 0
  | c :: rest =>
      match char_value c, weighted_sum (S i) rest with
      | Some v, Some s => Some (v * weight i + s)
      | _, _ => None
      end
  end.

(** Modelled from the spec: the computed check digit,
    [sum(value_i * weight_i) mod 10]. *)
Definition check_digit (field : list ascii) : option Z :=
  match weighted_sum 0 field with
  | Some s => Some (s mod 10)
  | None => None
  end.

(** Modelled from the spec: the checksum validator compares the computed
    digit to the stored check digit.  A field with a character outside
    the MRZ alphabet is not valid. *)
Definition checksum_valid (field : list ascii) (stored : Z) : bool :=
  match check_digit field with
  | Some d => d =? stored
  | None => false
  end.

(** The worked example of ICAO 9303: field [L898902C<], check digit 3. *)
Definition icao_example : list ascii := list_ascii_of_string "L898902C<".

(** Every replacement of one character of [field] by a different one is
    rejected by the validator. *)
Definition every_substitution_detected (field : list ascii) (stored : Z)
  : Prop :=
  forall (k : nat) (c c' : ascii),
    field !! k = Some c -> c' <> c ->
    checksum_valid (<[k := c']> field) stored = false.

End CheckDigit.

(** ** The [cv2.findContours] patch *)

(** What the patched function may hand back: a tuple of objects, or some
    other object. *)
Inductive pyobj (A : Type) : Type :=
| PyTuple (items : list A)
| PyObject (a : A).
Arguments PyTuple {A} items.
Arguments PyObject {A} a.

(** [findContours_wrapper], which passes its arguments on as they are; the
    module-level [_original_findContours] is a parameter. *)
Definition findContours_wrapper {Args A : Type}
    (_original_findContours : Args -> pyobj A) (args : Args) : pyobj A :=
  let results := _original_findContours args in
  match results with
  | PyTuple [_; contours; hierarchy] => PyTuple [contours; hierarchy]
  | _ => results
  end.

(** ** Reading the handler's answers *)

(** The error strings the three stages and the handler produce for
    [image]. *)
Definition stage_errors `{Providers} (image : ndarray) : list string :=
  [ "Image resolution too low (min 1200x900 pixels required)";
    "Image is too blurry (sharpness score: "
      +:+ format_1f (var (Laplacian_CV_64F (cvtColor_BGR2GRAY image)))
      +:+ ")";
    "MRZ not found or invalid";
    "No face detected in passport photo";
    "Face position incorrect (should be on right side)" ].

(** [mrz] with its four validity flags replaced. *)
Definition set_flags (number_ok dob_ok expiry_ok composite_ok : bool)
    (mrz : MRZ) : MRZ := {|
  country := country mrz;
  number := number mrz;
  date_of_birth := date_of_birth mrz;
  expiration_date := expiration_date mrz;
  names := names mrz;
  surname := surname mrz;
  sex := sex mrz;
  nationality := nationality mrz;
  valid_score := valid_score mrz;
  valid_number := number_ok;
  valid_date_of_birth := dob_ok;
  valid_expiration_date := expiry_ok;
  valid_composite := composite_ok
|}.

(** The providers [P] with another MRZ extraction. *)
Definition with_extract_mrz (P : Providers)
    (extract : bytes -> option MRZ) : Providers := {|
  imdecode := @imdecode P;
  cvtColor_BGR2GRAY := @cvtColor_BGR2GRAY P;
  Laplacian_CV_64F := @Laplacian_CV_64F P;
  var := @var P;
  format_1f := @format_1f P;
  imencode_jpg := @imencode_jpg P;
  extract_mrz := extract;
  detectMultiScale := @detectMultiScale P;
  str_exn := @str_exn P
|}.

(** ** The image scraper, [src/pass_scrap.py]

    The parts of the script that decide what is downloaded and where it is
    written: [download_image] and the loop of [process_page].  Selenium,
    BeautifulSoup, [requests], [urljoin], the regular-expression match of
    [alt_pattern] and the file system's verdict on [open] are providers.  A
    Python [str] is kept as a [string]; the operations embedded here only
    compare characters with ASCII characters. *)

Module Scraper.

(** [except Exception as e]: only [str(e)] is ever used. *)
Inductive exn : Type :=
| Exception (text : string).

Definition str (e : exn) : string :=
  match e with Exception text => text end.

(** The working directory and what was printed. *)
Record world : Type := mk_world {
  files : gmap string bytes;
  stdout : list string
}.

Inductive outcome (A : Type) : Type :=
| Returned (a : A)
| Raised (e : exn).
Arguments Returned {A} a.
Arguments Raised {A} e.

Definition M (A : Type) : Type := world -> outcome A * world.

Definition ret {A} (a : A) : M A := fun w => (Returned a, w).

Definition raise {A} (e : exn) : M A := fun w => (Raised e, w).

Definition bind {A B} (m : M A) (k : A -> M B) : M B :=
  fun w =>
    match m w with
    | (Returned a, w') => k a w'
    | (Raised e, w') => (Raised e, w')
    end.

Definition try_except {A} (m : M A) (h : exn -> M A) : M A :=
  fun w =>
    match m w with
    | (Returned a, w') => (Returned a, w')
    | (Raised e, w') => h e w'
    end.

Definition print (line : string) : M unit :=
  fun w => (Returned tt, mk_world (files w) (stdout w ++ [line])).

(** [requests.Response], as far as it is used. *)
Record response : Type := mk_response {
  status_code : Z;
  content : bytes
}.

Class Web : Type := {
  (** [requests.get(url, timeout=10)] *)
  requests_get : string -> exn + response;
  (** The [HTTPError] that [raise_for_status] raises for a response. *)
  http_error : response -> exn;
  (** [os.path.join] *)
  os_path_join : string -> string -> string;
  (** [open(path, "wb")]: the error it raises, if the system refuses.
      When it does not, the file exists and is empty. *)
  open_wb : string -> option exn;
  (** [f.write(data)] and the closing of the file opened at a path: nothing
      when all of [data] reached the file, otherwise the error raised and
      the bytes the file is left with. *)
  file_write : string -> bytes -> option (exn * bytes);
  (** [urljoin(base, path)], which raises [ValueError] on some paths *)
  urljoin : string -> string -> exn + string;
  (** [alt_pattern.match(_)], as a truth value *)
  alt_pattern_match : string -> bool;
  (** [_.strip()] *)
  strip : string -> string;
  (** [driver.get(url)], the wait for an [img] element, the parse of
      [driver.page_source] and [soup.find_all("img", onclick=True)]: the
      attributes of each tag found, or what one of these raised. *)
  find_img_tags : string -> exn + list (gmap string string)
}.

Definition save_folder : string := "passport_images".

(** The nine characters of the class that [re.sub] removes: backslash,
    slash, star, question mark, colon, double quote, angle brackets and
    bar. *)
Definition forbidden (c : ascii) : bool :=
  existsb (Ascii.eqb c)
    ["\"; "/"; "*"; "?"; ":"; "034"; "<"; ">"; "|"]%char.

(** [re.sub] of that class by the empty string, on [filename] *)
Fixpoint safe_filename (filename : string) : string :=
  match filename with
  | EmptyString => EmptyString
  | String c rest =>
      if forbidden c then safe_filename rest
      else String c (safe_filename rest)
  end.

(** [c in s], for a single character *)
Fixpoint contains (c : ascii) (s : string) : bool :=
  match s with
  | EmptyString => false
  | String c' rest => Ascii.eqb c' c || contains c rest
  end.

(** [s.split(sep)], for a separator of one character *)
Fixpoint split (sep : ascii) (s : string) : list string :=
  match s with
  | EmptyString => [EmptyString]
  | String c rest =>
      if Ascii.eqb c sep then EmptyString :: split sep rest
      else
        match split sep rest with
        | piece :: pieces => String c piece :: pieces
        | [] => [String c EmptyString]
        end
  end.

(** [sep.join(pieces)], for a separator of one character *)
Fixpoint join (sep : ascii) (pieces : list string) : string :=
  match pieces with
  | [] => EmptyString
  | [piece] => piece
  | piece :: rest => piece +:+ String sep (join sep rest)
  end.

(** [pieces[i]] *)
Definition getitem (pieces : list string) (i : nat) : M string :=
  match pieces !! i with
  | Some piece => ret piece
  | None => raise (Exception "list index out of range")
  end.

#[local, warnings="-notation-overridden"]
Notation "'let*' p ':=' m 'in' k" := (bind m (fun p => k))
  (at level 10, p pattern, k at level 200).

Section Script.
Context `{Web}.

Definition get (url : string) : M response :=
  fun w =>
    match requests_get url with
    | inl e => (Raised e, w)
    | inr r => (Returned r, w)
    end.

(** [response.raise_for_status()] *)
Definition raise_for_status (r : response) : M unit :=
  if (400 <=? status_code r) && (status_code r <? 600) then
    raise (http_error r)
  else ret tt.

(** [with open(path, "wb") as f: f.write(data)]: opening creates or
    empties the file before anything is written, so an error while writing
    leaves a changed file behind. *)
Definition write_file (path : string) (data : bytes) : M unit :=
  fun w =>
    match open_wb path with
    | Some e => (Raised e, w)
    | None =>
        match file_write path data with
        | Some (e, written) =>
            (Raised e, mk_world (<[path := written]> (files w)) (stdout w))
        | None =>
            (Returned tt, mk_world (<[path := data]> (files w)) (stdout w))
        end
    end.

(** *** [download_image] *)
Definition download_image (url filename : string) : M unit :=
  try_except
    (let* r := get url in
     let* _ := raise_for_status r in
     let safe := safe_filename filename in
     let* _ := write_file (os_path_join save_folder (safe +:+ ".jpg"))
                          (content r) in
     print ("Downloaded: " +:+ safe))
    (fun e => print ("Failed to download " +:+ filename +:+ ": " +:+ str e)).

(** The body of the [for img in img_tags] loop of [process_page]. *)
Definition process_img (url : string) (img : gmap string string) : M unit :=
  let alt_text := strip (default "" (img !! "alt")) in
  if negb (alt_pattern_match alt_text) then
    print ("Skipping " +:+ url +:+ ": Alt '" +:+ alt_text
             +:+ "' doesn't match pattern")
  else
    let onclick := default "" (img !! "onclick") in
    if String.eqb onclick "" || negb (contains "'" onclick) then ret tt
    else
      let* img_path := getitem (split "'" onclick) 1 in
      let* img_url :=
        (fun w => match urljoin url img_path with
                  | inl e => (Raised e, w)
                  | inr joined => (Returned joined, w)
                  end) in
      download_image img_url alt_text.

Fixpoint for_each {A} (items : list A) (body : A -> M unit) : M unit :=
  match items with
  | [] => ret tt
  | item :: rest => let* _ := body item in for_each rest body
  end.

(** *** [process_page] *)
Definition process_page (url : string) : M unit :=
  try_except
    (let* img_tags :=
       (fun w => match find_img_tags url with
                 | inl e => (Raised e, w)
                 | inr tags => (Returned tags, w)
                 end) in
     for_each img_tags (process_img url))
    (fun e => print ("Error processing " +:+ url +:+ ": " +:+ str e)).

End Script.

(** The stripped [alt] text of a tag. *)
Definition alt_text_of `{Web} (img : gmap string string) : string :=
  strip (default "" (img !! "alt")).

(** Where [download_image] writes for a file name. *)
Definition target_path `{Web} (filename : string) : string :=
  os_path_join save_folder (safe_filename filename +:+ ".jpg").

(** The tags the loop hands to [download_image]: the [alt] text matches
    the pattern and [onclick] contains an apostrophe. *)
Definition is_candidate `{Web} (img : gmap string string) : bool :=
  alt_pattern_match (alt_text_of img)
  && contains "'" (default "" (img !! "onclick")).

(** The tags for which the loop prints a line: those reported as skipped
    and those handed to [download_image]. *)
Definition leaves_a_line `{Web} (img : gmap string string) : bool :=
  negb (alt_pattern_match (alt_text_of img)) || is_candidate img.

(** Element 1 of the split of a tag's [onclick]. *)
Definition img_path_of (img : gmap string string) : string :=
  default "" (split "'" (default "" (img !! "onclick")) !! 1%nat).


(** A canned web: one image behind [http://x/img/a.jpg], a second address
    that answers 404, a file system that refuses names with a line break
    and runs full on names with an exclamation mark, and a [urljoin] that
    rejects paths starting with two slashes and a bracket. *)
Definition canned_web : Web := {|
  requests_get := fun url =>
    if String.eqb url "http://x/img/a.jpg" then
      inr (mk_response 200 [Byte.xff; Byte.xd8])
    else if String.eqb url "http://x/img/b.jpg" then
      inr (mk_response 404 [])
    else inl (Exception "connection refused");
  http_error := fun r => Exception "404 Client Error";
  os_path_join := fun a b => a +:+ "/" +:+ b;
  open_wb := fun path =>
    if contains "010" path then Some (Exception "Invalid argument")
    else None;
  file_write := fun path data =>
    if contains "!" path then Some (Exception "No space left on device", [])
    else None;
  urljoin := fun base path =>
    if String.prefix "//[" path then inl (Exception "Invalid IPv6 URL")
    else inr ("http://x/" +:+ path);
  alt_pattern_match := fun alt => String.eqb alt "Utopia Passport-1";
  strip := fun s => s;
  find_img_tags := fun url =>
    if String.eqb url "http://x/items/utopia.html" then
      inr [ {["alt" := "Utopia Passport-1";
              "onclick" := "showImage('img/b.jpg')"]};
            {["alt" := "logo"; "onclick" := "go('home')"]};
            {["alt" := "Utopia Passport-1"; "onclick" := "noop()"]};
            {["alt" := "Utopia Passport-1";
              "onclick" := "showImage('img/a.jpg', 'x')"]} ]
    else if String.eqb url "http://x/items/broken.html" then
      inr [ {["alt" := "logo"; "onclick" := "go('home')"]};
            {["alt" := "Utopia Passport-1";
              "onclick" := "showImage('//[oops')"]};
            {["alt" := "Utopia Passport-1";
              "onclick" := "showImage('img/a.jpg')"]} ]
    else inl (Exception "timeout")
|}.

Definition empty_world : world := mk_world ∅ [].

End Scraper.

(** ** Facts *)

Section Stages.
Context `{Providers}.

Lemma check_image_quality_run (image : ndarray) (w : world) :
  check_image_quality image w =
    if (shape_width image <? 800) || (shape_height image <? 600) then
      (Returned
         (false, "Image resolution too low (min 1200x900 pixels required)"),
       w)
    else
      let sharpness := var (Laplacian_CV_64F (cvtColor_BGR2GRAY image)) in
      (Returned
         (if Qltb sharpness 50 then
            (false,
             "Image is too blurry (sharpness score: "
               +:+ format_1f sharpness +:+ ")")
          else (true, "Image quality OK")),
       mk_world (files w) (calls w ++ [Call_cvtColor; Call_Laplacian])).
Proof.
  unfold check_image_quality, shape2.
  destruct ((shape_width image <? 800) || (shape_height image <? 600));
    [reflexivity|].
  unfold cv2_cvtColor, cv2_Laplacian, bind, log_call, ret; simpl.
  rewrite <- app_assoc; simpl.
  destruct (Qltb _ 50); reflexivity.
Qed.

Lemma check_image_quality_calls (image : ndarray) (w : world) :
  exists v,
    check_image_quality image w =
      (Returned v, mk_world (files w) (calls w ++ quality_calls image)).
Proof.
  rewrite check_image_quality_run. unfold quality_calls.
  destruct ((shape_width image <? 800) || (shape_height image <? 600)).
  - eexists. rewrite app_nil_r. destruct w; reflexivity.
  - eexists. reflexivity.
Qed.

(** What [validate_mrz] decides from the extraction result. *)
Lemma validate_mrz_run (image : ndarray) (w : world) :
  validate_mrz image w =
    (Returned
       match extract_mrz (imencode_jpg image) with
       | None => (false, None)
       | Some mrz =>
           match valid_score mrz with
           | None => (false, None)
           | Some score =>
               if score <=? 50 then (false, None)
               else
                 (true,
                  Some (mk_mrz_dict (country mrz) (number mrz)
                          (date_of_birth mrz) (expiration_date mrz)
                          (names mrz) (surname mrz) (sex mrz)
                          (nationality mrz)
                          (mk_details score (valid_number mrz)
                             (valid_date_of_birth mrz)
                             (valid_expiration_date mrz)
                             (valid_composite mrz))))
           end
       end,
     mk_world (<["temp_passport.jpg" := imencode_jpg image]> (files w))
              (calls w ++ mrz_calls)).
Proof.
  unfold validate_mrz, cv2_imwrite, read_mrz, bind, log_call, ret; simpl.
  rewrite lookup_insert_eq, <- app_assoc; simpl.
  destruct (extract_mrz (imencode_jpg image)) as [mrz|]; [|reflexivity].
  destruct (valid_score mrz) as [score|]; [|reflexivity].
  destruct (score <=? 50); reflexivity.
Qed.

Lemma check_passport_layout_run (image : ndarray) (w : world) :
  check_passport_layout image w =
    (Returned
       match detectMultiScale (cvtColor_BGR2GRAY image) with
       | [] => (false, "No face detected in passport photo")
       | (x, _, _, _) :: _ =>
           if Qltb (mul_0_4 (shape_width image)) (inject_Z x) then
             (false, "Face position incorrect (should be on right side)")
           else (true, "Basic layout OK")
       end,
     mk_world (files w) (calls w ++ layout_calls)).
Proof.
  unfold check_passport_layout, shape2, cv2_CascadeClassifier, cv2_cvtColor,
    face_cascade_detectMultiScale, bind, log_call, ret; simpl.
  rewrite <- !app_assoc; simpl.
  destruct (detectMultiScale (cvtColor_BGR2GRAY image))
    as [|[[[x y] bw] bh] rest]; [reflexivity|].
  destruct (Qltb _ _); reflexivity.
Qed.

Lemma Qltb_lt (a b : Q) : Qltb a b = true <-> (a < b)%Q.
Proof. unfold Qltb, Qlt. apply Z.ltb_lt. Qed.

Lemma Qltb_nlt (a b : Q) : Qltb a b = false <-> ~ (a < b)%Q.
Proof. unfold Qltb, Qlt. rewrite Z.ltb_ge. lia. Qed.

End Stages.

Section QualityGate.
Context `{Providers}.

Lemma resolution_too_low (image : ndarray) :
  (shape_width image <? 800) || (shape_height image <? 600) = true
  <-> shape_width image < 800 \/ shape_height image < 600.
Proof. rewrite orb_true_iff, !Z.ltb_lt. reflexivity. Qed.

Lemma resolution_sufficient (image : ndarray) :
  (shape_width image <? 800) || (shape_height image <? 600) = false
  <-> 800 <= shape_width image /\ 600 <= shape_height image.
Proof. rewrite orb_false_iff, !Z.ltb_ge. reflexivity. Qed.

(** C4: below 800 pixels of width or 600 of height the gate fails with
    the resolution reason, whatever the sharpness; from that resolution
    on, it fails with the too-blurry message, which contains the
    formatted score, exactly when the variance of the Laplacian of the
    grayscale image is below 50, and passes with "Image quality OK"
    exactly when it is not. *)
Theorem check_image_quality_policy (image : ndarray) (w : world) :
  (shape_width image < 800 \/ shape_height image < 600 ->
   fst (check_image_quality image w)
     = Returned
         (false, "Image resolution too low (min 1200x900 pixels required)"))
  /\ (800 <= shape_width image -> 600 <= shape_height image ->
      (fst (check_image_quality image w)
         = Returned
             (false,
              "Image is too blurry (sharpness score: "
                +:+ format_1f
                      (var (Laplacian_CV_64F (cvtColor_BGR2GRAY image)))
                +:+ ")")
       <-> (var (Laplacian_CV_64F (cvtColor_BGR2GRAY image)) < 50)%Q)
      /\ (fst (check_image_quality image w) = Returned (true, "Image quality OK")
          <-> ~ (var (Laplacian_CV_64F (cvtColor_BGR2GRAY image)) < 50)%Q)).
Proof.
  rewrite check_image_quality_run. split.
  - intros Hlow. apply resolution_too_low in Hlow. rewrite Hlow. reflexivity.
  - intros Hw Hh.
    assert (Hres := proj2 (resolution_sufficient image) (conj Hw Hh)).
    rewrite Hres. simpl.
    destruct (Qltb _ 50) eqn:Hblur.
    + apply Qltb_lt in Hblur. split; split; try discriminate; tauto.
    + apply Qltb_nlt in Hblur. split; split; try discriminate; tauto.
Qed.

(** C10: the resolution failure is the fixed string naming 1200x900, and
    from 800x600 on the gate never answers with it: in particular an image
    smaller than 1200x900 but at least 800x600 is not rejected for its
    resolution. *)
Theorem resolution_message_overstates (image : ndarray) (w : world) :
  (shape_width image < 800 \/ shape_height image < 600 ->
   fst (check_image_quality image w)
     = Returned
         (false, "Image resolution too low (min 1200x900 pixels required)"))
  /\ (800 <= shape_width image -> 600 <= shape_height image ->
      forall b : bool,
        fst (check_image_quality image w)
          <> Returned
               (b, "Image resolution too low (min 1200x900 pixels required)"))
  /\ (800 <= shape_width image < 1200 -> 600 <= shape_height image < 900 ->
      calls (snd (check_image_quality image w))
        = (calls w ++ [Call_cvtColor; Call_Laplacian])%list).
Proof.
  rewrite check_image_quality_run. split; [|split].
  - intros Hlow. apply resolution_too_low in Hlow. rewrite Hlow. reflexivity.
  - intros Hw Hh b.
    rewrite (proj2 (resolution_sufficient image) (conj Hw Hh)). simpl.
    destruct (Qltb _ 50); simpl; intros Heq; discriminate Heq.
  - intros Hw Hh.
    rewrite (proj2 (resolution_sufficient image)) by lia. reflexivity.
Qed.

(** The gate does not touch the files, and its verdict does not depend on
    the world it runs in. *)
Lemma check_image_quality_pure (image : ndarray) (w w' : world) :
  fst (check_image_quality image w) = fst (check_image_quality image w')
  /\ files (snd (check_image_quality image w)) = files w.
Proof.
  rewrite !check_image_quality_run.
  destruct ((shape_width image <? 800) || (shape_height image <? 600));
    split; reflexivity.
Qed.

End QualityGate.

Section MrzStage.
Context `{Providers}.

(** The stage passes exactly when a record was extracted, it has a score
    and the score is above 50. *)
Lemma validate_mrz_passes_iff (image : ndarray) (w : world) :
  (exists data, fst (validate_mrz image w) = Returned (true, data))
  <-> exists mrz score,
        extract_mrz (imencode_jpg image) = Some mrz
        /\ valid_score mrz = Some score /\ 50 < score.
Proof.
  rewrite validate_mrz_run. simpl.
  destruct (extract_mrz (imencode_jpg image)) as [mrz|].
  - destruct (valid_score mrz) as [score|] eqn:Hscore.
    + destruct (Z.leb_spec score 50) as [Hle|Hgt].
      * split; [intros [data [=]]|].
        intros (mrz' & score' & [= <-] & Hs & Hgt).
        rewrite Hscore in Hs. injection Hs as <-. lia.
      * split; [|eauto]. intros _. exists mrz, score. auto.
    + split; [intros [data [=]]|].
      intros (mrz' & score' & [= <-] & Hs & _). congruence.
  - split; [intros [data [=]]|].
    intros (mrz' & score' & [=] & _).
Qed.

(** C3: for an extracted record with a score, the stage passes exactly
    when the score is above 50, so 50 fails and 51 passes; and when it
    passes, the record is returned with its validity flags as they are,
    whatever their values. *)
Theorem validate_mrz_threshold (image : ndarray) (w : world)
    (mrz : MRZ) (score : Z) :
  extract_mrz (imencode_jpg image) = Some mrz ->
  valid_score mrz = Some score ->
  ((exists data, fst (validate_mrz image w) = Returned (true, data))
   <-> 50 < score)
  /\ (score = 50 -> fst (validate_mrz image w) = Returned (false, None))
  /\ (score = 51 ->
      exists data, fst (validate_mrz image w) = Returned (true, Some data))
  /\ (50 < score ->
      fst (validate_mrz image w)
        = Returned
            (true,
             Some {|
               d_country := country mrz;
               d_passport_number := number mrz;
               d_birth_date := date_of_birth mrz;
               d_expiry_date := expiration_date mrz;
               d_name := names mrz;
               d_surname := surname mrz;
               d_gender := sex mrz;
               d_nationality := nationality mrz;
               d_validation_details := {|
                 vd_valid_score := score;
                 vd_number_valid := valid_number mrz;
                 vd_dob_valid := valid_date_of_birth mrz;
                 vd_expiry_valid := valid_expiration_date mrz;
                 vd_composite_valid := valid_composite mrz
               |}
             |})).
Proof.
  intros Hmrz Hscore.
  rewrite validate_mrz_run, Hmrz, Hscore. simpl.
  destruct (Z.leb_spec score 50) as [Hle|Hgt].
  - split; [split; [intros [data [=]]|lia]|].
    split; [reflexivity|]. split; lia.
  - split; [split; [lia|eauto]|].
    split; [lia|]. split; [eauto|reflexivity].
Qed.

(** The temporary file written by the stage is still there afterwards,
    and no other file is touched. *)
Lemma validate_mrz_files (image : ndarray) (w : world) :
  files (snd (validate_mrz image w))
    = <["temp_passport.jpg" := imencode_jpg image]> (files w).
Proof. rewrite validate_mrz_run. reflexivity. Qed.

(** Two writes to the shared path, then a read: the read sees the second
    image. *)
Lemma temp_file_shared (image_a image_b : ndarray) (w : world) :
  let w1 := snd (cv2_imwrite "temp_passport.jpg" image_a w) in
  let w2 := snd (cv2_imwrite "temp_passport.jpg" image_b w1) in
  fst (read_mrz "temp_passport.jpg" w2)
    = Returned (extract_mrz (imencode_jpg image_b)).
Proof.
  unfold cv2_imwrite, read_mrz, bind, log_call; simpl.
  rewrite lookup_insert_eq. reflexivity.
Qed.

End MrzStage.

Section LayoutVerifier.
Context `{Providers}.

Lemma round_half_even_cases (n k : Z) :
  round_half_even n k = n / 2 ^ k \/ round_half_even n k = n / 2 ^ k + 1.
Proof.
  unfold round_half_even.
  destruct (2 * (n mod 2 ^ k) <? 2 ^ k); [auto|].
  destruct (2 ^ k <? 2 * (n mod 2 ^ k)); [auto|].
  destruct (Z.even (n / 2 ^ k)); auto.
Qed.

(** [mul_0_4] is the IEEE product on every width up to 2048, among them
    widths whose product is a tie, and on the largest image widths. *)
Example mul_0_4_is_ieee :
  all_below mul_0_4_agrees 2049 = true
  /\ all_below (fun i => mul_0_4_agrees (2 ^ 31 - 1 - i)) 64 = true
  /\ mul_0_4_agrees 3840 = true /\ mul_0_4_agrees 4096 = true.
Proof. vm_compute. repeat split. Qed.

Lemma round_half_even_bounds (n T m : Z) :
  0 < T -> m = n / T \/ m = n / T + 1 ->
  (n / T) * T <= m * T /\ n - T < m * T <= n + T.
Proof.
  intros HT Hm.
  pose proof (Z.div_mod n T ltac:(lia)) as Hdm.
  pose proof (Z.mod_pos_bound n T HT) as Hr.
  destruct Hm as [-> | ->]; nia.
Qed.

(** For an image width, at most 31 low bits of the product are rounded
    away. *)
Lemma rounding_exponent_bound (width : Z) :
  0 <= width < 2147483648 ->
  0 <= Z.max 0 (Z.log2 (width * double_0_4) - 52) <= 31.
Proof.
  intros Hw. split; [lia|].
  assert (Hlog : Z.log2 (width * double_0_4) < 84).
  { destruct (Z.eq_dec width 0) as [-> | Hnz]; [reflexivity|].
    apply Z.log2_lt_pow2; [unfold double_0_4; lia|].
    replace (2 ^ 84) with (2147483648 * 9007199254740992) by reflexivity.
    unfold double_0_4. nia. }
  lia.
Qed.

Lemma pow2_split (k : Z) :
  0 <= k <= 31 ->
  0 < 2 ^ k <= 2147483648
  /\ 0 < 2 ^ (54 - k)
  /\ 18014398509481984 = 2 ^ (54 - k) * 2 ^ k.
Proof.
  intros Hk. split; [split|split].
  - apply Z.pow_pos_nonneg; lia.
  - replace 2147483648 with (2 ^ 31) by reflexivity.
    apply Z.pow_le_mono_r; lia.
  - apply Z.pow_pos_nonneg; lia.
  - rewrite <- Z.pow_add_r by lia.
    replace (54 - k + k) with 54 by lia. reflexivity.
Qed.

(** The three cases of the comparison, on the product [5 * product =
    width * (2^55 + 2)], the unit [T = 2^k] of the rounding and the rounded
    value [V]: [5 x] below, equal to or above [2 width]. *)
Lemma below_case (x T V product width : Z) :
  0 <= width < 2147483648 -> 0 < T <= 2147483648 ->
  5 * product = width * 36028797018963970 ->
  product - T < V ->
  5 * x < 2 * width ->
  x * 18014398509481984 <= V.
Proof. lia. Qed.

Lemma tie_case (x S T q m product width : Z) :
  0 <= width -> 0 < T -> 0 < S ->
  18014398509481984 = S * T ->
  5 * product = width * 36028797018963970 ->
  5 * x = 2 * width ->
  q = product / T ->
  q * T <= m * T ->
  x * 18014398509481984 <= m * T.
Proof.
  intros Hw HT HS Hsplit Hprod Heq Hq HV.
  assert (Hge : x * S <= q).
  { subst q. apply Z.div_le_lower_bound; [lia|]. nia. }
  assert (x * 18014398509481984 <= q * T) by nia.
  lia.
Qed.

Lemma above_case (x T V product width : Z) :
  0 <= width < 2147483648 -> 0 < T <= 2147483648 ->
  5 * product = width * 36028797018963970 ->
  V <= product + T ->
  2 * width < 5 * x ->
  V < x * 18014398509481984.
Proof. lia. Qed.

(** The rounding of [width * 0.4] never moves the product across an
    integer: the float test [x > width * 0.4] is the exact one. *)
Lemma mul_0_4_exceeds (width x : Z) :
  0 <= width < 2147483648 ->
  (mul_0_4 width < inject_Z x)%Q <-> 2 * width < 5 * x.
Proof.
  intros Hw. unfold mul_0_4, Qlt. cbn [Qnum Qden inject_Z].
  replace (Z.pos (2 ^ 54)) with 18014398509481984 by reflexivity.
  rewrite Z.mul_1_r.
  pose proof (rounding_exponent_bound width Hw) as Hk.
  assert (Hprod : 5 * (width * double_0_4) = width * 36028797018963970)
    by (unfold double_0_4; lia).
  generalize dependent (width * double_0_4). intros product Hk Hprod.
  generalize dependent (Z.max 0 (Z.log2 product - 52)). intros k Hk.
  destruct (pow2_split k Hk) as (HT & HS & Hsplit).
  pose proof (round_half_even_cases product k) as Hcases.
  generalize dependent (round_half_even product k). intros m Hcases.
  generalize dependent (2 ^ (54 - k)). intros S HS Hsplit.
  generalize dependent (2 ^ k). intros T HT Hcases Hsplit.
  destruct (round_half_even_bounds product T m (proj1 HT) Hcases)
    as (Hfloor & Hlow & Hhigh).
  split.
  - intros Hlt.
    destruct (Z_lt_le_dec (2 * width) (5 * x)) as [?|Hle]; [assumption|].
    exfalso.
    destruct (Z.eq_dec (5 * x) (2 * width)) as [Heq|Hne].
    + pose proof (tie_case x S T (product / T) m product width
                    (proj1 Hw) (proj1 HT) HS Hsplit Hprod Heq eq_refl Hfloor).
      lia.
    + pose proof (below_case x T (m * T) product width Hw HT Hprod Hlow).
      lia.
  - intros Hlt.
    exact (above_case x T (m * T) product width Hw HT Hprod Hhigh Hlt).
Qed.

(** Exceeding 0.4 times the width, on integers. *)
Lemma exceeds_40_percent (width x : Z) :
  (inject_Z width * 0.4 < inject_Z x)%Q <-> 2 * width < 5 * x.
Proof. unfold Qlt; simpl. lia. Qed.

(** C5: with no box the check fails with "No face detected in passport
    photo"; otherwise the first box alone decides, whatever boxes follow:
    the check fails with the position message exactly when the box's [x]
    exceeds 0.4 times the width of the image, and passes with "Basic
    layout OK" exactly when it does not.  The width is an image
    dimension, below 2^31. *)
Theorem check_passport_layout_policy (image : ndarray) (w : world) :
  0 <= shape_width image < 2 ^ 31 ->
  (detectMultiScale (cvtColor_BGR2GRAY image) = [] ->
   fst (check_passport_layout image w)
     = Returned (false, "No face detected in passport photo"))
  /\ (forall (x y bw bh : Z) (rest : list (Z * Z * Z * Z)),
        detectMultiScale (cvtColor_BGR2GRAY image) = (x, y, bw, bh) :: rest ->
        (fst (check_passport_layout image w)
           = Returned
               (false, "Face position incorrect (should be on right side)")
         <-> (inject_Z (shape_width image) * 0.4 < inject_Z x)%Q)
        /\ (fst (check_passport_layout image w)
              = Returned (true, "Basic layout OK")
            <-> ~ (inject_Z (shape_width image) * 0.4 < inject_Z x)%Q)).
Proof.
  intros Hwidth.
  assert (Hw : 0 <= shape_width image < 2147483648) by exact Hwidth.
  rewrite check_passport_layout_run. split.
  - intros ->. reflexivity.
  - intros x y bw bh rest ->. simpl.
    rewrite exceeds_40_percent, <- (mul_0_4_exceeds _ x Hw).
    destruct (Qltb _ _) eqn:Hpos.
    + apply Qltb_lt in Hpos. split; split; try discriminate; tauto.
    + apply Qltb_nlt in Hpos. split; split; try discriminate; tauto.
Qed.

(** The verdict does not depend on the world. *)
Lemma check_passport_layout_pure (image : ndarray) (w w' : world) :
  fst (check_passport_layout image w) = fst (check_passport_layout image w').
Proof. rewrite !check_passport_layout_run. reflexivity. Qed.

End LayoutVerifier.

Section Orchestrator.
Context `{Providers}.

Lemma validate_mrz_calls (image : ndarray) (w : world) :
  exists (mrz_ok : bool) (mrz_data : option mrz_dict),
    validate_mrz image w =
      (Returned (mrz_ok, mrz_data),
       mk_world (<["temp_passport.jpg" := imencode_jpg image]> (files w))
                (calls w ++ mrz_calls))
    /\ (mrz_ok = true -> is_Some mrz_data).
Proof.
  rewrite validate_mrz_run.
  destruct (extract_mrz (imencode_jpg image)) as [mrz|];
    [|exists false, None; split; [reflexivity|discriminate]].
  destruct (valid_score mrz) as [score|];
    [|exists false, None; split; [reflexivity|discriminate]].
  destruct (score <=? 50);
    [exists false, None; split; [reflexivity|discriminate]|].
  eexists true, (Some _). split; [reflexivity|eauto].
Qed.

Lemma check_passport_layout_calls (image : ndarray) (w : world) :
  exists v,
    check_passport_layout image w =
      (Returned v, mk_world (files w) (calls w ++ layout_calls)).
Proof. rewrite check_passport_layout_run. eexists. reflexivity. Qed.

(** C1: the handler runs the quality check, then the MRZ validation, then
    the layout check; the first stage that fails decides the response, a
    JSONResponse of status 400 whose content is valid = False and, as the
    error, the message that stage returned (for the MRZ stage, which returns
    none, "MRZ not found or invalid"); and the handler stops in the world
    that stage left: the calls logged are those of the stages up to and
    including the failing one, each stage once. *)
Theorem validate_short_circuit (image : ndarray) (w : world) :
  exists (quality_ok : bool) (quality_msg : string) (w1 : world),
    check_image_quality image w = (Returned (quality_ok, quality_msg), w1)
    /\ calls w1 = (calls w ++ quality_calls image)%list
    /\ if quality_ok then
         exists (mrz_ok : bool) (mrz_data : option mrz_dict) (w2 : world),
           validate_mrz image w1 = (Returned (mrz_ok, mrz_data), w2)
           /\ calls w2 = (calls w ++ quality_calls image ++ mrz_calls)%list
           /\ if mrz_ok then
                exists (layout_ok : bool) (layout_msg : string) (w3 : world),
                  check_passport_layout image w2
                    = (Returned (layout_ok, layout_msg), w3)
                  /\ calls w3 = (calls w ++ quality_calls image ++ mrz_calls
                                   ++ layout_calls)%list
                  /\ if layout_ok then
                       exists content,
                         validate image w
                           = (Returned (ReturnDict content), w3)
                     else
                       validate image w
                         = (Returned
                              (JSONResponse 400
                                 (PDict [("valid", PBool false);
                                         ("error", PStr layout_msg)])),
                            w3)
              else
                validate image w
                  = (Returned
                       (JSONResponse 400
                          (PDict [("valid", PBool false);
                                  ("error",
                                   PStr "MRZ not found or invalid")])),
                     w2)
       else
         validate image w
           = (Returned
                (JSONResponse 400
                   (PDict [("valid", PBool false);
                           ("error", PStr quality_msg)])),
              w1)
         /\ files w1 = files w.
Proof.
  destruct (check_image_quality_calls image w) as [[quality_ok quality_msg] Hq].
  eexists quality_ok, quality_msg, _.
  split; [exact Hq|]. split; [reflexivity|].
  unfold validate, bind. rewrite Hq.
  destruct quality_ok; simpl; [|split; reflexivity].
  match goal with |- context [validate_mrz image ?w1] =>
    destruct (validate_mrz_calls image w1) as (mrz_ok & mrz_data & Hm & Hsome)
  end.
  eexists mrz_ok, mrz_data, _.
  split; [exact Hm|]. split; [simpl; rewrite <- app_assoc; reflexivity|].
  rewrite Hm.
  destruct mrz_ok; simpl; [|reflexivity].
  destruct (Hsome eq_refl) as [data ->].
  match goal with |- context [check_passport_layout image ?w2] =>
    destruct (check_passport_layout_calls image w2)
      as [[layout_ok layout_msg] Hl]
  end.
  eexists layout_ok, layout_msg, _.
  split; [exact Hl|]. split; [simpl; rewrite <- !app_assoc; reflexivity|].
  rewrite Hl.
  destruct layout_ok; simpl; [|reflexivity].
  eexists. reflexivity.
Qed.

Ltac run_stages :=
  unfold validate_passport, try_except, validate, bind;
  rewrite ?check_image_quality_run;
  repeat match goal with
    | |- context [if ?b then _ else _] => destruct b eqn:?; simpl
    | |- context [validate_mrz ?i ?w] => rewrite (validate_mrz_run i w); simpl
    | |- context [check_passport_layout ?i ?w] =>
        rewrite (check_passport_layout_run i w); simpl
    | |- context [match ?o with Some _ => _ | None => _ end] =>
        destruct o eqn:?; simpl
    | |- context [match ?l with [] => _ | _ :: _ => _ end] =>
        destruct l as [|[[[? ?] ?] ?] ?] eqn:?; simpl
    end.

(** C6, as amended: once the quality gate has passed, a missing record, a
    record without score and a record of score at most 50 all give the
    same response, status 400 with the error "MRZ not found or invalid"
    and nothing else. *)
Theorem mrz_failures_merged (image : ndarray) (w : world)
    (quality_msg : string) :
  fst (check_image_quality image w) = Returned (true, quality_msg) ->
  (extract_mrz (imencode_jpg image) = None
   \/ exists mrz,
        extract_mrz (imencode_jpg image) = Some mrz
        /\ (valid_score mrz = None
            \/ exists score, valid_score mrz = Some score /\ score <= 50)) ->
  fst (validate image w)
    = Returned
        (JSONResponse 400
           (PDict [("valid", PBool false);
                   ("error", PStr "MRZ not found or invalid")])).
Proof.
  intros Hq Hmrz.
  unfold validate, bind.
  destruct (check_image_quality image w) as [[[quality_ok msg]|e] w1];
    simpl in Hq; [injection Hq as -> ->|discriminate].
  simpl. rewrite validate_mrz_run.
  destruct Hmrz as [-> | (mrz & -> & [-> | (score & -> & Hle)])];
    try reflexivity.
  apply Z.leb_le in Hle. rewrite Hle. reflexivity.
Qed.

(** C7: when the three stages pass, the response is the dictionary of the
    record's country, passport number, birth date, expiry date, the name
    "surname given-names", sex and nationality, with the messages of the
    quality and layout stages under "checks". *)
Theorem validate_success (image : ndarray) (w : world)
    (quality_msg layout_msg : string) (mrz : MRZ) (score : Z) :
  fst (check_image_quality image w) = Returned (true, quality_msg) ->
  extract_mrz (imencode_jpg image) = Some mrz ->
  valid_score mrz = Some score ->
  50 < score ->
  fst (check_passport_layout image w) = Returned (true, layout_msg) ->
  fst (validate image w)
    = Returned
        (ReturnDict
           (PDict [
              ("valid", PBool true);
              ("country", PStr (country mrz));
              ("passport_number", PStr (number mrz));
              ("birth_date", PStr (date_of_birth mrz));
              ("expiry_date", PStr (expiration_date mrz));
              ("name", PStr (surname mrz +:+ " " +:+ names mrz));
              ("gender", PStr (sex mrz));
              ("nationality", PStr (nationality mrz));
              ("checks", PDict [
                 ("image_quality", PStr quality_msg);
                 ("layout_validation", PStr layout_msg)])
           ])).
Proof.
  intros Hq Hmrz Hscore Hgt Hl.
  unfold validate, bind.
  destruct (check_image_quality image w) as [[[quality_ok msg]|e] w1];
    simpl in Hq; [injection Hq as -> ->|discriminate].
  simpl. rewrite validate_mrz_run, Hmrz, Hscore.
  apply Z.leb_gt in Hgt. rewrite Hgt. simpl.
  match goal with |- context [check_passport_layout image ?w2] =>
    rewrite (check_passport_layout_pure image w w2) in Hl;
    destruct (check_passport_layout image w2) as [[[layout_ok msg]|e] w3]
  end; simpl in Hl; [injection Hl as -> ->|discriminate].
  reflexivity.
Qed.

(** C8: the response is a function of the image alone: it is the same
    from any two worlds, so also when the call is repeated in the world
    the first call left; the same holds for the handler on the uploaded
    bytes, and the quality gate neither reads nor writes the files. *)
Theorem validate_deterministic (image : ndarray) (contents : bytes)
    (w w' : world) :
  fst (validate image w) = fst (validate image w')
  /\ fst (validate image (snd (validate image w))) = fst (validate image w)
  /\ fst (validate_passport contents (snd (validate_passport contents w)))
       = fst (validate_passport contents w)
  /\ fst (check_image_quality image w) = fst (check_image_quality image w')
  /\ files (snd (check_image_quality image w)) = files w.
Proof.
  assert (Hdet : forall w1 w2,
             fst (validate image w1) = fst (validate image w2)).
  { intros w1 w2. run_stages; reflexivity. }
  assert (Hdet' : forall w1 w2,
             fst (validate_passport contents w1)
               = fst (validate_passport contents w2)).
  { intros w1 w2. unfold validate_passport, try_except.
    destruct (imdecode contents) as [decoded|]; [|reflexivity].
    clear Hdet. run_stages; reflexivity. }
  split; [apply Hdet|]. split; [apply Hdet|]. split; [apply Hdet'|].
  apply check_image_quality_pure.
Qed.

(** Once the quality gate has passed, the file written by the MRZ stage
    outlives the call. *)
Lemma validate_leaves_temp_file (image : ndarray) (w : world)
    (quality_msg : string) :
  fst (check_image_quality image w) = Returned (true, quality_msg) ->
  files (snd (validate image w)) !! "temp_passport.jpg"
    = Some (imencode_jpg image).
Proof.
  intros Hq. unfold validate, bind.
  rewrite check_image_quality_run in *.
  destruct ((shape_width image <? 800) || (shape_height image <? 600));
    [discriminate Hq|].
  simpl in *. destruct (Qltb _ 50); [discriminate Hq|]. simpl.
  run_stages; apply lookup_insert_eq.
Qed.

(** The handler never raises from a decoded image. *)
Lemma validate_returns (image : ndarray) (w : world) :
  exists r, fst (validate image w) = Returned r.
Proof. run_stages; eexists; reflexivity. Qed.

End Orchestrator.

Section CheckDigitFacts.
Import CheckDigit.

Example icao_example_valid : checksum_valid icao_example 3 = true.
Proof. reflexivity. Qed.

Lemma weight_cases (i : nat) : weight i = 7 \/ weight i = 3 \/ weight i = 1.
Proof.
  unfold weight. destruct (i mod 3)%nat as [|[|?]]; auto.
Qed.

(** The weights are invertible modulo 10. *)
Lemma weight_cancel (i : nat) (d : Z) :
  (d * weight i) mod 10 = 0 -> d mod 10 = 0.
Proof.
  destruct (weight_cases i) as [-> | [-> | ->]]; intros Hd;
    Z.div_mod_to_equations; lia.
Qed.

(** Replacing the character at position [k] shifts the weighted sum by
    the difference of the two values times the weight of the position. *)
Lemma weighted_sum_insert (field : list ascii) :
  forall (i k : nat) (c c' : ascii) (v v' s : Z),
    field !! k = Some c ->
    char_value c = Some v ->
    char_value c' = Some v' ->
    weighted_sum i field = Some s ->
    weighted_sum i (<[k := c']> field)
      = Some (s + (v' - v) * weight (i + k)).
Proof.
  induction field as [|c0 rest IH]; intros i k c c' v v' s Hk Hv Hv' Hs.
  - discriminate.
  - destruct k as [|k]; simpl in *.
    + injection Hk as ->. rewrite Hv in Hs. rewrite Hv'.
      destruct (weighted_sum (S i) rest) as [s0|]; [|discriminate].
      injection Hs as <-. rewrite Nat.add_0_r. f_equal. lia.
    + destruct (char_value c0) as [v0|]; [|discriminate].
      destruct (weighted_sum (S i) rest) as [s0|] eqn:Hrest; [|discriminate].
      injection Hs as <-.
      rewrite (IH (S i) k c c' v v' s0 Hk Hv Hv' Hrest).
      replace (i + S k)%nat with (S i + k)%nat by lia.
      f_equal. lia.
Qed.

Lemma checksum_valid_inv (field : list ascii) (stored : Z) :
  checksum_valid field stored = true ->
  exists s, weighted_sum 0 field = Some s /\ s mod 10 = stored.
Proof.
  unfold checksum_valid, check_digit.
  destruct (weighted_sum 0 field) as [s|]; [|discriminate].
  intros Heq. exists s. split; [reflexivity|lia].
Qed.

(** C2, as amended: a field with a correct check digit is accepted; a
    replacement of one character by one whose value differs modulo 10 is
    rejected, and so is any other stored digit; a replacement by a
    character of the same value modulo 10, such as [<] by [0] or [A] by
    [K], is not detected: the field stays valid. *)
Theorem checksum_detects_value_change (field : list ascii) (stored : Z) :
  check_digit field = Some stored ->
  checksum_valid field stored = true
  /\ (forall (k : nat) (c c' : ascii) (v v' : Z),
        field !! k = Some c ->
        char_value c = Some v ->
        char_value c' = Some v' ->
        v mod 10 <> v' mod 10 ->
        checksum_valid (<[k := c']> field) stored = false)
  /\ (forall stored' : Z,
        stored' <> stored -> checksum_valid field stored' = false)
  /\ (forall (k : nat) (c c' : ascii) (v v' : Z),
        field !! k = Some c ->
        char_value c = Some v ->
        char_value c' = Some v' ->
        v mod 10 = v' mod 10 ->
        checksum_valid (<[k := c']> field) stored = true).
Proof.
  intros Hd.
  assert (Hvalid : checksum_valid field stored = true).
  { unfold checksum_valid. rewrite Hd. apply Z.eqb_refl. }
  split; [exact Hvalid|]. split; [|split].
  - intros k c c' v v' Hk Hv Hv' Hne.
    destruct (checksum_valid_inv _ _ Hvalid) as (s & Hs & Hmod).
    unfold checksum_valid, check_digit.
    rewrite (weighted_sum_insert field 0 k c c' v v' s Hk Hv Hv' Hs).
    apply Z.eqb_neq. intros Heq.
    assert (Hdiff : ((v' - v) * weight (0 + k)) mod 10 = 0).
    { remember ((v' - v) * weight (0 + k)) as delta.
      Z.div_mod_to_equations. lia. }
    apply weight_cancel in Hdiff.
    apply Hne. Z.div_mod_to_equations. lia.
  - intros stored' Hne. unfold checksum_valid. rewrite Hd.
    apply Z.eqb_neq. congruence.
  - intros k c c' v v' Hk Hv Hv' Hsame.
    destruct (checksum_valid_inv _ _ Hvalid) as (s & Hs & Hmod).
    unfold checksum_valid, check_digit.
    rewrite (weighted_sum_insert field 0 k c c' v v' s Hk Hv Hv' Hs).
    apply Z.eqb_eq. rewrite <- Hmod.
    assert (Hdiv : (v' - v) mod 10 = 0)
      by (Z.div_mod_to_equations; lia).
    apply Z.mod_divide in Hdiv; [|lia]. destruct Hdiv as [q Hq].
    rewrite Hq.
    replace (s + q * 10 * weight (0 + k))
      with (s + q * weight (0 + k) * 10) by lia.
    apply Z.mod_add. lia.
Qed.

Lemma checksum_detects_value_change_witness :
  check_digit icao_example = Some 3
  /\ checksum_valid icao_example 3 = true
  /\ checksum_valid (<[7%nat := "D"%char]> icao_example) 3 = false
  /\ checksum_valid icao_example 4 = false
  /\ checksum_valid (<[8%nat := "0"%char]> icao_example) 3 = true
  /\ checksum_valid
       (<[0%nat := "K"%char]> (list_ascii_of_string "AB2134")) 5 = true.
Proof.
  assert (Hd : check_digit icao_example = Some 3) by reflexivity.
  destruct (checksum_detects_value_change icao_example 3 Hd)
    as (Hvalid & Hsub & Hdigit & Hsame).
  split; [exact Hd|]. split; [exact Hvalid|]. split; [|split; [|split]].
  - apply (Hsub 7%nat "C"%char "D"%char 12 13); [reflexivity ..|].
    vm_compute. discriminate.
  - apply Hdigit. lia.
  - apply (Hsame 8%nat "<"%char "0"%char 0 0); reflexivity.
  - assert (Hd' : check_digit (list_ascii_of_string "AB2134") = Some 5)
      by reflexivity.
    apply (proj2 (proj2 (proj2
             (checksum_detects_value_change _ 5 Hd')))
             0%nat "A"%char "K"%char 10 20);
      reflexivity.
Defined.

(** C2 as stated fails: in the ICAO example, replacing the filler [<] at
    position 8 by the digit [0], a different character of the same value,
    leaves the field valid. *)
Lemma filler_to_zero_undetected :
  check_digit icao_example = Some 3
  /\ ~ every_substitution_detected icao_example 3.
Proof.
  split; [reflexivity|].
  intros Hall.
  specialize (Hall 8%nat "<"%char "0"%char eq_refl).
  assert (Hne : "0"%char <> "<"%char) by discriminate.
  specialize (Hall Hne). vm_compute in Hall. discriminate.
Qed.

End CheckDigitFacts.

(** ** Scenarios with stub providers *)

Section Scenarios.

(** A 400x300 image fails at the quality gate, and nothing else runs. *)
Example scenario_low_resolution :
  @validate passing_providers image_400x300 empty_world
    = (Returned
         (failure "Image resolution too low (min 1200x900 pixels required)"),
       empty_world).
Proof. reflexivity. Qed.

(** A blurred 1200x900 image: only the quality gate's calls are logged. *)
Example scenario_blurry :
  @validate blurry_providers image_1200x900 empty_world
    = (Returned (failure "Image is too blurry (sharpness score: ?)"),
       mk_world ∅ [Call_cvtColor; Call_Laplacian]).
Proof. reflexivity. Qed.

(** A sharp 1200x900 image without MRZ: the layout check does not run. *)
Example scenario_mrz_not_found :
  let '(response, w) :=
    @validate not_found_providers image_1200x900 empty_world in
  response = Returned (failure "MRZ not found or invalid")
  /\ calls w = [Call_cvtColor; Call_Laplacian;
                Call_imwrite "temp_passport.jpg";
                Call_read_mrz "temp_passport.jpg"].
Proof. vm_compute. split; reflexivity. Qed.

(** A score of exactly 50 fails, 51 passes. *)
Example scenario_score_50 :
  fst (@validate low_confidence_providers image_1200x900 empty_world)
    = Returned (failure "MRZ not found or invalid").
Proof. vm_compute. reflexivity. Qed.

Example scenario_score_51 :
  fst (@validate score_51_providers image_1200x900 empty_world)
    = Returned
        (ReturnDict
           (PDict [
              ("valid", PBool true);
              ("country", PStr "UTO");
              ("passport_number", PStr "L898902C3");
              ("birth_date", PStr "740812");
              ("expiry_date", PStr "120415");
              ("name", PStr "ERIKSSON ANNA MARIA");
              ("gender", PStr "F");
              ("nationality", PStr "UTO");
              ("checks", PDict [
                 ("image_quality", PStr "Image quality OK");
                 ("layout_validation", PStr "Basic layout OK")])
           ])).
Proof. vm_compute. reflexivity. Qed.

(** A first box at half the width fails the layout check, although the
    second box is well placed; without boxes the check fails too. *)
Example scenario_misplaced_face :
  let '(response, w) :=
    @validate misplaced_face_providers image_1200x900 empty_world in
  response
    = Returned (failure "Face position incorrect (should be on right side)")
  /\ calls w = ([Call_cvtColor; Call_Laplacian] ++ mrz_calls ++ layout_calls)%list.
Proof. vm_compute. split; reflexivity. Qed.

Example scenario_no_face :
  fst (@validate no_face_providers image_1200x900 empty_world)
    = Returned (failure "No face detected in passport photo").
Proof. vm_compute. reflexivity. Qed.

(** Bytes that do not decode: the 400 raised inside the [try] is caught by
    the handler's own [except Exception] and leaves as a 500. *)
Example scenario_invalid_image :
  fst (@validate_passport passing_providers [] empty_world)
    = Raised (HTTPException 500 "Processing error: Invalid image file").
Proof. reflexivity. Qed.

Lemma check_image_quality_policy_witness :
  fst (@check_image_quality blurry_providers image_400x300 empty_world)
    = Returned
        (false, "Image resolution too low (min 1200x900 pixels required)")
  /\ fst (@check_image_quality blurry_providers image_1200x900 empty_world)
       = Returned (false, "Image is too blurry (sharpness score: ?)")
  /\ fst (@check_image_quality passing_providers image_800x600 empty_world)
       = Returned (true, "Image quality OK").
Proof.
  split; [|split].
  - apply (@check_image_quality_policy blurry_providers).
    left; simpl; lia.
  - apply (@check_image_quality_policy blurry_providers image_1200x900);
      [simpl; lia | simpl; lia | reflexivity].
  - apply (@check_image_quality_policy passing_providers image_800x600);
      [simpl; lia | simpl; lia |].
    intros Hlt. vm_compute in Hlt. discriminate Hlt.
Defined.

Lemma resolution_message_overstates_witness :
  fst (@check_image_quality passing_providers image_400x300 empty_world)
    = Returned
        (false, "Image resolution too low (min 1200x900 pixels required)")
  /\ fst (@check_image_quality passing_providers image_800x600 empty_world)
       <> Returned
            (false, "Image resolution too low (min 1200x900 pixels required)")
  /\ calls (snd (@check_image_quality passing_providers image_800x600
                   empty_world))
       = [Call_cvtColor; Call_Laplacian].
Proof.
  split; [|split].
  - apply (@resolution_message_overstates passing_providers).
    left; simpl; lia.
  - apply (@resolution_message_overstates passing_providers image_800x600);
      simpl; lia.
  - apply (@resolution_message_overstates passing_providers image_800x600
             empty_world); simpl; lia.
Defined.

Lemma validate_mrz_threshold_witness :
  fst (@validate_mrz passing_providers image_1200x900 empty_world)
    = Returned
        (true,
         Some (mk_mrz_dict "UTO" "L898902C3" "740812" "120415" "ANNA MARIA"
                 "ERIKSSON" "F" "UTO" (mk_details 60 false true true true)))
  /\ fst (@validate_mrz low_confidence_providers image_1200x900 empty_world)
       = Returned (false, None).
Proof.
  split.
  - apply (@validate_mrz_threshold passing_providers image_1200x900
             empty_world (specimen 60 false) 60 eq_refl eq_refl).
    lia.
  - apply (@validate_mrz_threshold low_confidence_providers image_1200x900
             empty_world (specimen 50 false) 50 eq_refl eq_refl).
    reflexivity.
Defined.

Lemma check_passport_layout_policy_witness :
  fst (@check_passport_layout no_face_providers image_1200x900 empty_world)
    = Returned (false, "No face detected in passport photo")
  /\ fst (@check_passport_layout misplaced_face_providers image_1200x900
            empty_world)
       = Returned (false, "Face position incorrect (should be on right side)")
  /\ fst (@check_passport_layout passing_providers image_1200x900 empty_world)
       = Returned (true, "Basic layout OK").
Proof.
  assert (Hwidth : 0 <= shape_width image_1200x900 < 2 ^ 31)
    by (simpl; lia).
  split; [|split].
  - apply (@check_passport_layout_policy no_face_providers image_1200x900
             empty_world Hwidth).
    reflexivity.
  - apply (proj2 (@check_passport_layout_policy misplaced_face_providers
                    image_1200x900 empty_world Hwidth)
             600 80 300 400 [face_left] eq_refl).
    reflexivity.
  - apply (proj2 (@check_passport_layout_policy passing_providers
                    image_1200x900 empty_world Hwidth)
             120 80 300 400 [] eq_refl).
    intros Hlt. vm_compute in Hlt. discriminate Hlt.
Defined.

Lemma mrz_failures_merged_witness :
  fst (@validate not_found_providers image_1200x900 empty_world)
    = Returned (failure "MRZ not found or invalid")
  /\ fst (@validate low_confidence_providers image_1200x900 empty_world)
       = Returned (failure "MRZ not found or invalid").
Proof.
  split.
  - apply (@mrz_failures_merged not_found_providers image_1200x900
             empty_world "Image quality OK" eq_refl).
    left. reflexivity.
  - apply (@mrz_failures_merged low_confidence_providers image_1200x900
             empty_world "Image quality OK" eq_refl).
    right. exists (specimen 50 false). split; [reflexivity|].
    right. exists 50. split; [reflexivity|lia].
Defined.

(** C6 as stated fails: for the same image, a record of score 50 and no
    record at all give the same response. *)
Lemma low_confidence_not_distinct :
  ~ mrz_failures_distinct low_confidence_providers not_found_providers
      image_1200x900 empty_world.
Proof.
  unfold mrz_failures_distinct. intros Hne. apply Hne.
  vm_compute. reflexivity.
Qed.

Lemma validate_success_witness :
  fst (@validate passing_providers image_1200x900 empty_world)
    = Returned
        (ReturnDict
           (PDict [
              ("valid", PBool true);
              ("country", PStr "UTO");
              ("passport_number", PStr "L898902C3");
              ("birth_date", PStr "740812");
              ("expiry_date", PStr "120415");
              ("name", PStr "ERIKSSON ANNA MARIA");
              ("gender", PStr "F");
              ("nationality", PStr "UTO");
              ("checks", PDict [
                 ("image_quality", PStr "Image quality OK");
                 ("layout_validation", PStr "Basic layout OK")])
           ])).
Proof.
  apply (@validate_success passing_providers image_1200x900 empty_world
           "Image quality OK" "Basic layout OK" (specimen 60 false) 60
           eq_refl eq_refl eq_refl).
  - lia.
  - reflexivity.
Defined.

(** C9 fails on the code: a request for a sharp 1200x900 image, started
    in a directory without the file, leaves [temp_passport.jpg] behind
    with the encoded image in it. *)
Theorem temp_file_survives :
  files empty_world !! "temp_passport.jpg" = None
  /\ files (snd (@validate passing_providers image_1200x900 empty_world))
       !! "temp_passport.jpg"
     = Some (@imencode_jpg passing_providers image_1200x900).
Proof.
  split; [reflexivity|].
  apply (@validate_leaves_temp_file passing_providers image_1200x900
           empty_world "Image quality OK").
  reflexivity.
Qed.

End Scenarios.


(** ** The [cv2.findContours] patch *)

Section FindContoursPatch.
Context {Args A : Type}.

(** X1: whether OpenCV answers with (image, contours, hierarchy) or with
    (contours, hierarchy), the patched function answers with (contours,
    hierarchy); it never hands back a tuple of three, and patching twice is
    patching once. *)
Theorem findContours_wrapper_two_results
    (original : Args -> pyobj A) (args : Args) :
  (forall image contours hierarchy : A,
     original args = PyTuple [image; contours; hierarchy]
     \/ original args = PyTuple [contours; hierarchy] ->
     findContours_wrapper original args = PyTuple [contours; hierarchy])
  /\ (forall items : list A,
        findContours_wrapper original args = PyTuple items ->
        length items <> 3%nat)
  /\ findContours_wrapper (findContours_wrapper original) args
       = findContours_wrapper original args.
Proof.
  unfold findContours_wrapper.
  split; [|split].
  - intros image contours hierarchy [-> | ->]; reflexivity.
  - intros items.
    destruct (original args) as [[|a [|b [|c [|d rest]]]]|a];
      intros [= <-]; discriminate.
  - destruct (original args) as [[|a [|b [|c [|d rest]]]]|a]; reflexivity.
Qed.

End FindContoursPatch.

Lemma findContours_wrapper_two_results_witness :
  findContours_wrapper (fun _ : unit => PyTuple ["image"; "contours"; "hierarchy"]) tt
    = PyTuple ["contours"; "hierarchy"]
  /\ findContours_wrapper (fun _ : unit => PyTuple ["contours"; "hierarchy"]) tt
       = PyTuple ["contours"; "hierarchy"].
Proof.
  split.
  - apply (proj1 (findContours_wrapper_two_results
                    (fun _ : unit => PyTuple ["image"; "contours"; "hierarchy"])
                    tt) "image").
    left. reflexivity.
  - apply (proj1 (findContours_wrapper_two_results
                    (fun _ : unit => PyTuple ["contours"; "hierarchy"])
                    tt) "image").
    right. reflexivity.
Defined.

(** ** More on the handler *)

Ltac run_handler :=
  unfold validate_passport, try_except, validate, bind;
  rewrite ?check_image_quality_run;
  repeat match goal with
    | |- context [if ?b then _ else _] => destruct b eqn:?; simpl
    | |- context [validate_mrz ?i ?w] => rewrite (validate_mrz_run i w); simpl
    | |- context [check_passport_layout ?i ?w] =>
        rewrite (check_passport_layout_run i w); simpl
    | |- context [match ?o with Some _ => _ | None => _ end] =>
        destruct o eqn:?; simpl
    | |- context [match ?l with [] => _ | _ :: _ => _ end] =>
        destruct l as [|[[[? ?] ?] ?] ?] eqn:?; simpl
    end.

Section Handler.
Context `{Providers}.

(** X2: bytes that do not decode never get the 400 the handler raises for
    them: the handler's own [except Exception] catches it and raises a 500
    whose detail is "Processing error: " followed by the text of the 400.
    No stage runs and nothing is written. *)
Theorem invalid_upload_is_500 (contents : bytes) (w : world) :
  imdecode contents = None ->
  validate_passport contents w
    = (Raised
         (HTTPException 500
            ("Processing error: "
               +:+ str_exn (HTTPException 400 "Invalid image file"))),
       w).
Proof.
  intros Hdecode. unfold validate_passport, try_except.
  rewrite Hdecode. reflexivity.
Qed.

(** X3: whatever the upload, a value the handler returns is either the
    success dictionary, which starts with valid = True, or a JSONResponse of
    status 400 whose content is exactly valid = False and an error, the
    error being one of the five the stages produce for the decoded image;
    and an exception the handler raises is an HTTPException of status 500
    whose detail starts with "Processing error: ". *)
Theorem handler_answers (contents : bytes) (w : world) :
  (forall r : retval,
     fst (validate_passport contents w) = Returned r ->
     exists image,
       imdecode contents = Some image
       /\ ((exists items,
              r = ReturnDict (PDict (("valid", PBool true) :: items)))
           \/ (exists error,
                 r = JSONResponse 400
                       (PDict [("valid", PBool false); ("error", PStr error)])
                 /\ In error (stage_errors image))))
  /\ (forall e : exn,
        fst (validate_passport contents w) = Raised e ->
        exists detail,
          e = HTTPException 500 ("Processing error: " +:+ detail)).
Proof.
  unfold validate_passport, try_except.
  destruct (imdecode contents) as [image|]; simpl.
  - assert (Hout : forall o, fst (validate image w) = o ->
              match o with
              | Returned r =>
                  (exists items,
                     r = ReturnDict (PDict (("valid", PBool true) :: items)))
                  \/ (exists error,
                        r = JSONResponse 400
                              (PDict [("valid", PBool false);
                                      ("error", PStr error)])
                        /\ In error (stage_errors image))
              | Raised _ => False
              end).
    { intros o <-. unfold stage_errors.
      run_handler;
        solve [ left; eexists; reflexivity
              | right; eexists; split; [reflexivity|simpl; tauto] ]. }
    specialize (Hout _ eq_refl).
    destruct (validate image w) as [[r|e] w']; simpl in *; [|contradiction].
    split; [|discriminate].
    intros r' [= <-]. exists image. split; [reflexivity|exact Hout].
  - split; [discriminate|].
    intros e [= <-]. eexists. reflexivity.
Qed.

(** X4: the handler answers with the success dictionary exactly when the
    image is at least 800x600, its sharpness is at least 50, a record with a
    score above 50 was extracted, and the first face box starts at most at
    0.4 times the width. *)
Theorem success_iff_all_checks (image : ndarray) (w : world) :
  shape_width image < 2 ^ 31 ->
  (exists content, fst (validate image w) = Returned (ReturnDict content))
  <-> 800 <= shape_width image /\ 600 <= shape_height image
      /\ (50 <= var (Laplacian_CV_64F (cvtColor_BGR2GRAY image)))%Q
      /\ (exists mrz score,
            extract_mrz (imencode_jpg image) = Some mrz
            /\ valid_score mrz = Some score /\ 50 < score)
      /\ (exists x y bw bh rest,
            detectMultiScale (cvtColor_BGR2GRAY image) = (x, y, bw, bh) :: rest
            /\ 5 * x <= 2 * shape_width image).
Proof.
  intros Hwidth.
  assert (Hbound : shape_width image < 2147483648) by exact Hwidth.
  unfold validate, bind. rewrite check_image_quality_run.
  destruct ((shape_width image <? 800) || (shape_height image <? 600))
    eqn:Hres; simpl.
  { apply resolution_too_low in Hres.
    split; [intros [content [=]]|]. intros (Hw & Hh & _). lia. }
  apply resolution_sufficient in Hres. destruct Hres as [Hw Hh].
  destruct (Qltb _ 50) eqn:Hblur; simpl.
  { apply Qltb_lt in Hblur.
    split; [intros [content [=]]|]. intros (_ & _ & Hsharp & _).
    exfalso. apply (Qlt_not_le _ _ Hblur Hsharp). }
  apply Qltb_nlt, Qnot_lt_le in Hblur.
  rewrite validate_mrz_run.
  destruct (extract_mrz (imencode_jpg image)) as [mrz|] eqn:Hmrz; simpl;
    [|split; [intros [content [=]]|];
      intros (_ & _ & _ & (mrz' & score' & [=] & _) & _)].
  destruct (valid_score mrz) as [score|] eqn:Hscore; simpl;
    [|split; [intros [content [=]]|];
      intros (_ & _ & _ & (mrz' & score' & [= <-] & Hs & _) & _);
      congruence].
  destruct (Z.leb_spec score 50) as [Hle|Hgt]; simpl.
  { split; [intros [content [=]]|].
    intros (_ & _ & _ & (mrz' & score' & [= <-] & Hs & Hgt) & _).
    rewrite Hscore in Hs. injection Hs as <-. lia. }
  rewrite check_passport_layout_run.
  destruct (detectMultiScale (cvtColor_BGR2GRAY image))
    as [|[[[x y] bw] bh] rest] eqn:Hfaces; simpl.
  { split; [intros [content [=]]|].
    intros (_ & _ & _ & _ & (x & y & bw & bh & rest & [=] & _)). }
  assert (Hrange : 0 <= shape_width image < 2147483648) by lia.
  destruct (Qltb (mul_0_4 (shape_width image)) (inject_Z x)) eqn:Hpos; simpl.
  - apply Qltb_lt in Hpos.
    apply (mul_0_4_exceeds _ x Hrange) in Hpos.
    split; [intros [content [=]]|].
    intros (_ & _ & _ & _ & (x' & y' & bw' & bh' & rest' & [= <- _ _ _ _] & Hx)).
    lia.
  - apply Qltb_nlt in Hpos.
    rewrite (mul_0_4_exceeds _ x Hrange) in Hpos.
    split; [intros _|eauto].
    repeat split; try assumption.
    + exists mrz, score. auto.
    + exists x, y, bw, bh, rest. split; [reflexivity|lia].
Qed.

(** X5: whatever the upload, the handler writes no file but
    [temp_passport.jpg]: every other path holds afterwards what it held
    before. *)
Theorem only_temp_file_written (contents : bytes) (w : world)
    (path : string) :
  path <> "temp_passport.jpg" ->
  files (snd (validate_passport contents w)) !! path = files w !! path.
Proof.
  intros Hpath. unfold validate_passport, try_except.
  destruct (imdecode contents) as [image|]; [|reflexivity].
  run_handler; try reflexivity; apply lookup_insert_ne; congruence.
Qed.

(** X6: after two requests in a row, [temp_passport.jpg] holds the second
    image when that image passed the quality gate; when it did not, the
    second request leaves the file as it was, so an image that passed the
    gate before is still on disk. *)
Theorem temp_file_holds_last_scanned (image_a image_b : ndarray) (w : world)
    (msg_a msg_b : string) :
  let w1 := snd (validate image_a w) in
  let w2 := snd (validate image_b w1) in
  (fst (check_image_quality image_b w) = Returned (true, msg_b) ->
   files w2 !! "temp_passport.jpg" = Some (imencode_jpg image_b))
  /\ (fst (check_image_quality image_a w) = Returned (true, msg_a) ->
      fst (check_image_quality image_b w) = Returned (false, msg_b) ->
      files w2 !! "temp_passport.jpg" = Some (imencode_jpg image_a)).
Proof.
  assert (Hkeep : forall image w0 msg,
             fst (check_image_quality image w0) = Returned (true, msg) ->
             files (snd (validate image w0)) !! "temp_passport.jpg"
               = Some (imencode_jpg image)).
  { intros image w0 msg. rewrite check_image_quality_run.
    unfold validate, bind. rewrite check_image_quality_run.
    destruct ((shape_width image <? 800) || (shape_height image <? 600));
      [discriminate|]. simpl.
    destruct (Qltb _ 50); [discriminate|]. simpl. intros _.
    run_handler; apply lookup_insert_eq. }
  assert (Hskip : forall image w0 msg,
             fst (check_image_quality image w0) = Returned (false, msg) ->
             files (snd (validate image w0)) = files w0).
  { intros image w0 msg. rewrite check_image_quality_run.
    unfold validate, bind. rewrite check_image_quality_run.
    destruct ((shape_width image <? 800) || (shape_height image <? 600));
      [reflexivity|]. simpl.
    destruct (Qltb _ 50); [reflexivity|discriminate]. }
  intros w1 w2. split.
  - intros Hb. apply (Hkeep image_b w1 msg_b).
    rewrite <- Hb. apply check_image_quality_pure.
  - intros Ha Hb. unfold w2.
    rewrite (Hskip image_b w1 msg_b).
    + apply (Hkeep image_a w msg_a Ha).
    + rewrite <- Hb. apply check_image_quality_pure.
Qed.

(** X8: whatever [validate_mrz] returns, its flag is True exactly when its
    second component is a dictionary rather than None, so that the handler
    subscripts a dictionary whenever the flag lets it through; and a
    dictionary it returns always carries a score above 50. *)
Theorem validate_mrz_result_shape (image : ndarray) (w : world)
    (ok : bool) (data : option mrz_dict) :
  fst (validate_mrz image w) = Returned (ok, data) ->
  (ok = true <-> is_Some data)
  /\ (forall d,
        data = Some d -> 50 < vd_valid_score (d_validation_details d)).
Proof.
  rewrite validate_mrz_run. simpl.
  assert (Hnone : (false = true <-> is_Some (@None mrz_dict))
                  /\ (forall d : mrz_dict,
                        None = Some d ->
                        50 < vd_valid_score (d_validation_details d))).
  { split; [split; [discriminate|intros [d [=]]]|discriminate]. }
  destruct (extract_mrz (imencode_jpg image)) as [mrz|];
    [|intros [= <- <-]; exact Hnone].
  destruct (valid_score mrz) as [score|]; [|intros [= <- <-]; exact Hnone].
  destruct (Z.leb_spec score 50) as [Hle|Hgt]; intros [= <- <-];
    [exact Hnone|].
  split; [split; eauto|].
  intros d [= <-]. exact Hgt.
Qed.

End Handler.

(** X7: the four validity flags of the extracted record play no part in
    the answer: with the flags replaced by any others, the handler gives the
    same response. *)
Theorem validity_flags_ignored (P : Providers) (image : ndarray) (w : world)
    (number_ok dob_ok expiry_ok composite_ok : bool) :
  fst (@validate
         (with_extract_mrz P
            (fun contents =>
               set_flags number_ok dob_ok expiry_ok composite_ok
                 <$> @extract_mrz P contents))
         image w)
    = fst (@validate P image w).
Proof.
  unfold validate, bind.
  rewrite !check_image_quality_run. simpl.
  destruct ((shape_width image <? 800) || (shape_height image <? 600));
    [reflexivity|]. simpl.
  destruct (Qltb _ 50); [reflexivity|]. simpl.
  rewrite !validate_mrz_run. simpl.
  destruct (@extract_mrz P (@imencode_jpg P image)) as [mrz|]; simpl;
    [|reflexivity].
  destruct (valid_score mrz) as [score|]; simpl; [|reflexivity].
  destruct (score <=? 50); simpl; [reflexivity|].
  rewrite !check_passport_layout_run. simpl.
  destruct (@detectMultiScale P (@cvtColor_BGR2GRAY P image))
    as [|[[[x y] bw] bh] rest]; simpl; [reflexivity|].
  destruct (Qltb _ _); reflexivity.
Qed.

(** ** The scraper *)

Section ScraperStrings.
Import Scraper.

Lemma split_cons (sep : ascii) (s : string) :
  exists piece pieces, split sep s = piece :: pieces.
Proof.
  destruct s as [|c rest]; simpl; [eauto|].
  destruct (Ascii.eqb c sep); [eauto|].
  destruct (split sep rest); eauto.
Qed.

Lemma join_split (sep : ascii) (s : string) : join sep (split sep s) = s.
Proof.
  induction s as [|c rest IH]; [reflexivity|].
  simpl. destruct (split_cons sep rest) as (piece & pieces & Hrest).
  rewrite Hrest in *.
  destruct (Ascii.eqb_spec c sep) as [-> | Hne].
  - change (join sep (EmptyString :: piece :: pieces))
      with (String sep (join sep (piece :: pieces))).
    rewrite IH. reflexivity.
  - destruct pieces as [|piece' pieces]; simpl in *; rewrite <- IH; reflexivity.
Qed.

Lemma split_pieces_free (sep : ascii) (s : string) :
  Forall (fun piece => contains sep piece = false) (split sep s).
Proof.
  induction s as [|c rest IH]; simpl.
  - constructor; [reflexivity|constructor].
  - destruct (Ascii.eqb c sep) eqn:Hc.
    + constructor; [reflexivity|exact IH].
    + destruct (split sep rest) as [|piece pieces].
      * constructor; [simpl; rewrite Hc; reflexivity|constructor].
      * inversion IH as [|? ? Hpiece Hpieces]; subst.
        constructor; [simpl; rewrite Hc; exact Hpiece|exact Hpieces].
Qed.

Lemma split_free (sep : ascii) (s : string) :
  contains sep s = false -> split sep s = [s].
Proof.
  induction s as [|c rest IH]; [reflexivity|].
  simpl. destruct (Ascii.eqb c sep); [discriminate|]. simpl.
  intros Hrest. rewrite (IH Hrest). reflexivity.
Qed.

Lemma append_cons (c : ascii) (s t : string) :
  String c s +:+ t = String c (s +:+ t).
Proof. reflexivity. Qed.

Lemma append_empty (s : string) : s +:+ EmptyString = s.
Proof.
  induction s as [|c s IH]; [reflexivity|].
  rewrite append_cons, IH. reflexivity.
Qed.

Lemma split_append (sep : ascii) (before rest : string) :
  contains sep before = false ->
  split sep (before +:+ String sep rest) = before :: split sep rest.
Proof.
  induction before as [|c before IH].
  - intros _. change (EmptyString +:+ String sep rest) with (String sep rest).
    simpl. rewrite Ascii.eqb_refl. reflexivity.
  - rewrite append_cons. simpl.
    destruct (Ascii.eqb c sep); [discriminate|]. simpl.
    intros Hfree. rewrite (IH Hfree). reflexivity.
Qed.

Lemma contains_split (sep : ascii) (s : string) :
  contains sep s = true
  <-> exists before piece pieces, split sep s = before :: piece :: pieces.
Proof.
  split.
  - induction s as [|c rest IH]; [discriminate|].
    simpl. destruct (split_cons sep rest) as (piece & pieces & Hrest).
    destruct (Ascii.eqb c sep); simpl.
    + intros _. rewrite Hrest. eauto.
    + intros Hin. destruct (IH Hin) as (before & piece' & pieces' & Hsplit).
      rewrite Hsplit. eauto.
  - intros (before & piece & pieces & Hsplit).
    destruct (contains sep s) eqn:Hfree; [reflexivity|].
    rewrite (split_free sep s Hfree) in Hsplit. discriminate.
Qed.

(** X9: the guard of the loop is exactly what the subscript needs: element
    1 of [onclick.split("'")] exists when [onclick] contains an apostrophe,
    and the subscript raises when it does not. *)
Theorem onclick_guard_exact (onclick : string) (w : world) :
  (contains "'" onclick = true ->
   exists img_path,
     getitem (split "'" onclick) 1 w = (Returned img_path, w))
  /\ (contains "'" onclick = false ->
      getitem (split "'" onclick) 1 w
        = (Raised (Exception "list index out of range"), w)).
Proof.
  split.
  - intros Hin.
    apply contains_split in Hin as (before & piece & pieces & ->).
    exists piece. reflexivity.
  - intros Hfree. rewrite (split_free _ _ Hfree). reflexivity.
Qed.

(** X10: element 1 of the split is the text between the first and the
    second apostrophe, or up to the end when there is no second one. *)
Theorem img_path_between_apostrophes (before img_path tail : string)
    (w : world) :
  contains "'" before = false ->
  contains "'" img_path = false ->
  tail = EmptyString \/ (exists rest, tail = String "'" rest) ->
  getitem (split "'" (before +:+ String "'" (img_path +:+ tail))) 1 w
    = (Returned img_path, w).
Proof.
  intros Hbefore Hpath Htail.
  rewrite (split_append _ _ _ Hbefore).
  destruct Htail as [-> | [rest ->]].
  - rewrite append_empty, (split_free _ _ Hpath). reflexivity.
  - rewrite (split_append _ _ _ Hpath). reflexivity.
Qed.

Lemma safe_filename_clean (filename : string) (c : ascii) :
  contains c (safe_filename filename) = true -> forbidden c = false.
Proof.
  induction filename as [|c' rest IH]; [discriminate|].
  simpl. destruct (forbidden c') eqn:Hc'; [exact IH|].
  simpl. destruct (Ascii.eqb_spec c' c) as [<- | Hne]; [auto|exact IH].
Qed.

Lemma safe_filename_fixed (filename : string) :
  (forall c, contains c filename = true -> forbidden c = false) ->
  safe_filename filename = filename.
Proof.
  induction filename as [|c rest IH]; [reflexivity|].
  intros Hfree. simpl.
  rewrite (Hfree c) by (simpl; rewrite Ascii.eqb_refl; reflexivity).
  rewrite IH; [reflexivity|].
  intros c' Hc'. apply Hfree. simpl. rewrite Hc'. apply orb_true_r.
Qed.

(** X11: the file name keeps none of the nine characters, it is the given
    name when that has none of them, and cleaning a clean name changes
    nothing. *)
Theorem safe_filename_removes_forbidden (filename : string) :
  (forall c, forbidden c = true ->
             contains c (safe_filename filename) = false)
  /\ ((forall c, forbidden c = true -> contains c filename = false) ->
      safe_filename filename = filename)
  /\ safe_filename (safe_filename filename) = safe_filename filename.
Proof.
  split; [|split].
  - intros c Hc.
    destruct (contains c (safe_filename filename)) eqn:Hin; [|reflexivity].
    apply safe_filename_clean in Hin. congruence.
  - intros Hfree. apply safe_filename_fixed. intros c Hin.
    destruct (forbidden c) eqn:Hc; [|reflexivity].
    rewrite (Hfree c Hc) in Hin. discriminate.
  - apply safe_filename_fixed. intros c. apply safe_filename_clean.
Qed.

End ScraperStrings.

Section ScraperScript.
Import Scraper.
Context `{Web}.

Lemma download_image_run (url filename : string) (w : world) :
  download_image url filename w =
    let failed := fun (e : exn) (fs : gmap string bytes) =>
      (Returned tt,
       mk_world fs
         (stdout w
            ++ ["Failed to download " +:+ filename +:+ ": " +:+ str e])) in
    match requests_get url with
    | inl e => failed e (files w)
    | inr r =>
        if (400 <=? status_code r) && (status_code r <? 600) then
          failed (http_error r) (files w)
        else
          match open_wb (target_path filename) with
          | Some e => failed e (files w)
          | None =>
              match file_write (target_path filename) (content r) with
              | Some (e, written) =>
                  failed e (<[target_path filename := written]> (files w))
              | None =>
                  (Returned tt,
                   mk_world
                     (<[target_path filename := content r]> (files w))
                     (stdout w
                        ++ ["Downloaded: " +:+ safe_filename filename]))
              end
          end
    end.
Proof.
  unfold download_image, try_except, bind, get, raise_for_status, write_file,
    print, raise, ret, target_path.
  destruct (requests_get url) as [e|r]; [reflexivity|].
  destruct ((400 <=? status_code r) && (status_code r <? 600)); [reflexivity|].
  destruct (open_wb _); [reflexivity|].
  destruct (file_write _ _) as [[e written]|]; reflexivity.
Qed.

Lemma status_ok (r : response) :
  (400 <=? status_code r) && (status_code r <? 600) = false
  <-> ~ (400 <= status_code r < 600).
Proof.
  rewrite andb_false_iff, Z.leb_gt, Z.ltb_ge. lia.
Qed.


(** X13: two names that clean to the same file name share one file: when
    both downloads succeed, the files are as if only the second had run. *)
Theorem same_name_overwrites (url1 url2 name1 name2 : string)
    (r1 r2 : response) (w : world) :
  safe_filename name1 = safe_filename name2 ->
  requests_get url1 = inr r1 -> ~ (400 <= status_code r1 < 600) ->
  requests_get url2 = inr r2 -> ~ (400 <= status_code r2 < 600) ->
  open_wb (target_path name2) = None ->
  file_write (target_path name2) (content r2) = None ->
  files (snd (download_image url2 name2 (snd (download_image url1 name1 w))))
    = <[target_path name2 := content r2]> (files w).
Proof.
  intros Hsame Hget1 Hok1 Hget2 Hok2 Hopen Hwrite.
  assert (Hpath : target_path name1 = target_path name2)
    by (unfold target_path; rewrite Hsame; reflexivity).
  apply status_ok in Hok1, Hok2.
  rewrite !download_image_run. cbv zeta.
  rewrite Hget1, Hget2, Hok1, Hok2, Hpath, Hopen, Hwrite.
  destruct (file_write (target_path name2) (content r1)) as [[e written]|];
    simpl; apply insert_insert_eq.
Qed.

(** What one turn of the loop does: it may raise, only when [urljoin]
    does; it prints at most one line, and it changes at most the target of
    the tag. *)
Lemma process_img_run (url : string) (img : gmap string string) (w : world) :
  exists o w',
    process_img url img w = (o, w')
    /\ (files w' = files w
        \/ is_candidate img = true
           /\ exists data,
                files w' = <[target_path (alt_text_of img) := data]> (files w))
    /\ match o with
       | Returned _ =>
           length (stdout w')
             = (length (stdout w) + if leaves_a_line img then 1 else 0)%nat
           /\ (is_candidate img = true ->
               exists joined, urljoin url (img_path_of img) = inr joined)
       | Raised e =>
           is_candidate img = true
           /\ urljoin url (img_path_of img) = inl e /\ w' = w
       end.
Proof.
  unfold process_img, leaves_a_line, is_candidate, img_path_of.
  fold (alt_text_of img).
  destruct (alt_pattern_match (alt_text_of img)) eqn:Hmatch; simpl.
  - destruct (contains "'" (default "" (img !! "onclick"))) eqn:Hin.
    + assert (Hne : String.eqb (default "" (img !! "onclick")) "" = false).
      { destruct (default "" (img !! "onclick")); [discriminate|reflexivity]. }
      rewrite Hne. simpl. unfold bind.
      apply contains_split in Hin as (before & img_path & pieces & ->).
      unfold getitem, ret. simpl.
      destruct (urljoin url img_path) as [e|joined] eqn:Hjoin.
      { eexists _, _. split; [reflexivity|]. split; [left; reflexivity|].
        auto. }
      rewrite download_image_run. cbv zeta.
      destruct (requests_get joined) as [e|r];
        [|destruct ((400 <=? status_code r) && (status_code r <? 600));
          [|destruct (open_wb (target_path (alt_text_of img)));
            [|destruct (file_write (target_path (alt_text_of img)) (content r))
                as [[e written]|]]]];
        eexists _, _; (split; [reflexivity|]); simpl;
        (split; [solve [left; reflexivity | right; eauto]|]);
        (split; [rewrite length_app; reflexivity|eauto]).
    + rewrite orb_true_r. exists (Returned tt), w. split; [reflexivity|].
      split; [left; reflexivity|]. split; [lia|discriminate].
  - eexists _, _. split; [reflexivity|]. simpl.
    split; [left; reflexivity|].
    split; [rewrite length_app; reflexivity|discriminate].
Qed.

Lemma for_each_frame (url : string) (tags : list (gmap string string)) :
  forall w : world,
    exists o w',
      for_each tags (process_img url) w = (o, w')
      /\ forall path,
           files w' !! path <> files w !! path ->
           exists img,
             In img tags /\ is_candidate img = true
             /\ path = target_path (alt_text_of img).
Proof.
  induction tags as [|img tags IH]; intros w.
  - exists (Returned tt), w. split; [reflexivity|]. congruence.
  - simpl. unfold bind.
    destruct (process_img_run url img w) as (o1 & w1 & -> & Hfiles1 & Ho1).
    destruct o1 as [[]|e].
    + destruct (IH w1) as (o & w' & -> & Hfiles).
      exists o, w'. split; [reflexivity|].
      intros path Hchanged.
      assert (Hlater : files w' !! path <> files w1 !! path ->
                exists img',
                  In img' (img :: tags) /\ is_candidate img' = true
                  /\ path = target_path (alt_text_of img')).
      { intros Hdiff.
        destruct (Hfiles path Hdiff) as (img' & Hin & Hcand & ->).
        exists img'. split; [right; exact Hin|]. auto. }
      destruct Hfiles1 as [Hkept | (Hcand & data & Hwritten)].
      * apply Hlater. rewrite Hkept. exact Hchanged.
      * destruct (decide (path = target_path (alt_text_of img)))
          as [-> | Hother].
        -- exists img. split; [left; reflexivity|]. auto.
        -- apply Hlater.
           rewrite Hwritten, lookup_insert_ne by congruence. exact Hchanged.
    + destruct Ho1 as (_ & _ & ->).
      exists (Raised e), w. split; [reflexivity|]. congruence.
Qed.




(** X15: [process_page] writes nowhere but where [download_image] writes
    for a tag of the page whose [alt] text matches the pattern and whose
    [onclick] contains an apostrophe: the folder, the cleaned [alt] text and
    ".jpg". *)
Theorem process_page_writes_only_matches (url : string) (w : world)
    (path : string) :
  files (snd (process_page url w)) !! path <> files w !! path ->
  exists tags img,
    find_img_tags url = inr tags /\ In img tags
    /\ alt_pattern_match (alt_text_of img) = true
    /\ contains "'" (default "" (img !! "onclick")) = true
    /\ path = os_path_join save_folder
                (safe_filename (alt_text_of img) +:+ ".jpg").
Proof.
  unfold process_page, try_except, bind.
  destruct (find_img_tags url) as [e|tags]; simpl; [congruence|].
  destruct (for_each_frame url tags w) as (o & w' & -> & Hfiles).
  assert (Hsame : files (snd (match o with
                               | Returned a => (Returned a, w')
                               | Raised e =>
                                   print ("Error processing " +:+ url +:+ ": "
                                            +:+ str e) w'
                               end)) = files w')
    by (destruct o; reflexivity).
  rewrite Hsame. intros Hchanged.
  destruct (Hfiles path Hchanged) as (img & Hin & Hcand & ->).
  apply andb_true_iff in Hcand as [Hmatch Honclick].
  exists tags, img. auto.
Qed.

End ScraperScript.

(** ** Scenarios for the handler and the scraper *)

Section MoreScenarios.

Lemma invalid_upload_is_500_witness :
  @validate_passport passing_providers [] empty_world
    = (Raised (HTTPException 500 "Processing error: Invalid image file"),
       empty_world).
Proof.
  exact (@invalid_upload_is_500 passing_providers [] empty_world eq_refl).
Defined.

Lemma handler_answers_witness :
  (exists image,
     @imdecode blurry_providers [Byte.xff] = Some image
     /\ ((exists items,
            JSONResponse 400
              (PDict [("valid", PBool false);
                      ("error",
                       PStr "Image is too blurry (sharpness score: ?)")])
              = ReturnDict (PDict (("valid", PBool true) :: items)))
         \/ (exists error,
               JSONResponse 400
                 (PDict [("valid", PBool false);
                         ("error",
                          PStr "Image is too blurry (sharpness score: ?)")])
                 = JSONResponse 400
                     (PDict [("valid", PBool false); ("error", PStr error)])
               /\ In error (@stage_errors blurry_providers image))))
  /\ (exists detail,
        HTTPException 500 "Processing error: Invalid image file"
          = HTTPException 500 ("Processing error: " +:+ detail)).
Proof.
  split.
  - apply (proj1 (@handler_answers blurry_providers [Byte.xff] empty_world)).
    reflexivity.
  - apply (proj2 (@handler_answers blurry_providers [] empty_world)).
    reflexivity.
Defined.

Lemma success_iff_all_checks_witness :
  exists content,
    fst (@validate passing_providers image_1200x900 empty_world)
      = Returned (ReturnDict content).
Proof.
  assert (Hwidth : shape_width image_1200x900 < 2 ^ 31) by (simpl; lia).
  apply (@success_iff_all_checks passing_providers image_1200x900 empty_world
           Hwidth).
  split; [simpl; lia|]. split; [simpl; lia|].
  split; [vm_compute; discriminate|].
  split.
  - exists (specimen 60 false), 60. split; [reflexivity|].
    split; [reflexivity|lia].
  - exists 120, 80, 300, 400, []. split; [reflexivity|simpl; lia].
Defined.

Lemma only_temp_file_written_witness :
  files (snd (@validate_passport passing_providers [Byte.xff] empty_world))
    !! "passport_images/Utopia Passport-1.jpg"
  = files empty_world !! "passport_images/Utopia Passport-1.jpg".
Proof.
  apply (@only_temp_file_written passing_providers).
  discriminate.
Defined.

Lemma temp_file_holds_last_scanned_witness :
  files (snd (@validate passing_providers image_400x300
                (snd (@validate passing_providers image_1200x900
                        empty_world))))
    !! "temp_passport.jpg"
  = Some (@imencode_jpg passing_providers image_1200x900).
Proof.
  apply (proj2 (@temp_file_holds_last_scanned passing_providers
                  image_1200x900 image_400x300 empty_world
                  "Image quality OK"
                  "Image resolution too low (min 1200x900 pixels required)"));
    reflexivity.
Defined.

Lemma validate_mrz_result_shape_witness :
  (true = true
   <-> is_Some
         (Some (mk_mrz_dict "UTO" "L898902C3" "740812" "120415" "ANNA MARIA"
                  "ERIKSSON" "F" "UTO" (mk_details 60 false true true true))))
  /\ (false = true <-> is_Some (@None mrz_dict)).
Proof.
  split.
  - apply (@validate_mrz_result_shape passing_providers image_1200x900
             empty_world). reflexivity.
  - apply (@validate_mrz_result_shape low_confidence_providers image_1200x900
             empty_world). reflexivity.
Defined.

Lemma onclick_guard_exact_witness :
  (exists img_path,
     Scraper.getitem (Scraper.split "'" "showImage('img/a.jpg')") 1
       Scraper.empty_world
       = (Scraper.Returned img_path, Scraper.empty_world))
  /\ Scraper.getitem (Scraper.split "'" "noop()") 1 Scraper.empty_world
       = (Scraper.Raised (Scraper.Exception "list index out of range"),
          Scraper.empty_world).
Proof.
  split.
  - apply (proj1 (onclick_guard_exact "showImage('img/a.jpg')"
                    Scraper.empty_world)).
    reflexivity.
  - apply (proj2 (onclick_guard_exact "noop()" Scraper.empty_world)).
    reflexivity.
Defined.

Lemma img_path_between_apostrophes_witness :
  Scraper.getitem
    (Scraper.split "'" "showImage('img/a.jpg', 'x')") 1 Scraper.empty_world
    = (Scraper.Returned "img/a.jpg", Scraper.empty_world).
Proof.
  apply (img_path_between_apostrophes "showImage(" "img/a.jpg" "', 'x')"
           Scraper.empty_world);
    [reflexivity | reflexivity | right; eexists; reflexivity].
Defined.

Lemma safe_filename_removes_forbidden_witness :
  Scraper.contains "/" (Scraper.safe_filename "../etc: a<b>") = false
  /\ Scraper.safe_filename "Utopia Passport-1" = "Utopia Passport-1".
Proof.
  split.
  - apply (proj1 (safe_filename_removes_forbidden "../etc: a<b>")).
    reflexivity.
  - apply (proj1 (proj2 (safe_filename_removes_forbidden "Utopia Passport-1"))).
    intros c Hc. unfold Scraper.forbidden in Hc. simpl in Hc.
    repeat (apply orb_true_iff in Hc as [Hc | Hc];
            [apply Ascii.eqb_eq in Hc as ->; reflexivity|]).
    discriminate.
Defined.

Lemma same_name_overwrites_witness :
  Scraper.files
    (snd (@Scraper.download_image Scraper.canned_web
            "http://x/img/a.jpg" "Utopia Passport-1"
            (snd (@Scraper.download_image Scraper.canned_web
                    "http://x/img/a.jpg" "Utopia: Passport-1"
                    Scraper.empty_world))))
  = <["passport_images/Utopia Passport-1.jpg" := [Byte.xff; Byte.xd8]]> ∅.
Proof.
  apply (@same_name_overwrites Scraper.canned_web
           "http://x/img/a.jpg" "http://x/img/a.jpg"
           "Utopia: Passport-1" "Utopia Passport-1"
           (Scraper.mk_response 200 [Byte.xff; Byte.xd8])
           (Scraper.mk_response 200 [Byte.xff; Byte.xd8])
           Scraper.empty_world);
    try reflexivity; simpl; lia.
Defined.


Lemma process_page_writes_only_matches_witness :
  exists tags img,
    @Scraper.find_img_tags Scraper.canned_web "http://x/items/utopia.html"
      = inr tags
    /\ In img tags
    /\ @Scraper.alt_pattern_match Scraper.canned_web
         (@Scraper.alt_text_of Scraper.canned_web img) = true
    /\ Scraper.contains "'" (default "" (img !! "onclick")) = true
    /\ "passport_images/Utopia Passport-1.jpg"
       = @Scraper.os_path_join Scraper.canned_web Scraper.save_folder
           (Scraper.safe_filename
              (@Scraper.alt_text_of Scraper.canned_web img) +:+ ".jpg").
Proof.
  apply (@process_page_writes_only_matches Scraper.canned_web
           "http://x/items/utopia.html" Scraper.empty_world).
  vm_compute. discriminate.
Defined.

End MoreScenarios.
